(** * vulndb: the normalized record model and the query engine

    A shallow embedding of [vulndb/lib/__init__.py] (severity parsing, CPE
    decomposition, the record constructors) and of the storage and query
    layer [vulndb/lib/db.py], followed by the properties of both. *)

From Stdlib Require Import ZArith Ascii String Bool Lia.
From stdpp Require Import base option list strings gmap fin_maps.

Local Open Scope string_scope.

Set Warnings "-register-all".

(** ** Python values, truthiness and exceptions *)

(** The values the constructors receive.  A [str] is the sequence of the
    UTF-8 bytes of its text; [PBytes false] is a [bytes] and [PBytes true] a
    [bytearray]; a [dict] with string keys is an association list whose
    first binding of a key is the live one. *)
Inductive pyval : Type :=
| PNone
| PBool (b : bool)
| PInt (z : Z)
| PStr (s : string)
| PBytes (mutable : bool) (b : string)
| PList (l : list pyval)
| PDict (d : list (string * pyval)).

(** [bool(v)], the test behind [if v] and [if not v]. *)
Definition truthy (v : pyval) : bool :=
  match v with
  | PNone => false
  | PBool b => b
  | PInt z => negb (Z.eqb z 0)
  | PStr s => negb (String.eqb s EmptyString)
  | PBytes _ b => negb (String.eqb b EmptyString)
  | PList l => match l with [] => false | _ => true end
  | PDict d => match d with [] => false | _ => true end
  end.

Inductive exn : Type := KeyError | AttributeError | TypeError.

Inductive result (A : Type) : Type :=
| Ok (a : A)
| Raise (e : exn).
Arguments Ok {A} a.
Arguments Raise {A} e.

Definition bind {A B} (r : result A) (f : A -> result B) : result B :=
  match r with
  | Ok a => f a
  | Raise e => Raise e
  end.

Notation "x <- r ;; k" := (bind r (fun x => k))
  (at level 100, r at next level, right associativity).

#[global] Instance result_fmap : FMap result := fun A B f r =>
  match r with
  | Ok a => Ok (f a)
  | Raise e => Raise e
  end.

(** [d.get(key)]: [None] for a missing key. *)
Fixpoint dict_get (d : list (string * pyval)) (key : string) : pyval :=
  match d with
  | [] => PNone
  | (k, v) :: rest => if String.eqb k key then v else dict_get rest key
  end.

(** [d[key]]: [KeyError] for a missing key. *)
Fixpoint dict_getitem (d : list (string * pyval)) (key : string) : result pyval :=
  match d with
  | [] => Raise KeyError
  | (k, v) :: rest => if String.eqb k key then Ok v else dict_getitem rest key
  end.

(** [v.get(key)] on an arbitrary value: only a dict has the method. *)
Definition py_get (v : pyval) (key : string) : result pyval :=
  match v with
  | PDict d => Ok (dict_get d key)
  | _ => Raise AttributeError
  end.

(** [bytes.upper] and [bytearray.upper]: the bytes a-z become A-Z, every
    other byte stays. *)
Definition upper_ascii (c : ascii) : ascii :=
  let n := nat_of_ascii c in
  if (97 <=? n)%nat && (n <=? 122)%nat then ascii_of_nat (n - 32) else c.

Fixpoint bytes_upper (b : string) : string :=
  match b with
  | EmptyString => EmptyString
  | String c r => String (upper_ascii c) (bytes_upper r)
  end.

(** A continuation byte of UTF-8. *)
Definition is_cont (c : ascii) : bool :=
  (128 <=? N_of_ascii c)%N && (N_of_ascii c <? 192)%N.

(** The six value bits of a continuation byte. *)
Definition cont_bits (c : ascii) : N := (N_of_ascii c - 128)%N.

(** The code point that starts a text in UTF-8, with the number of
    continuation bytes it takes.  A byte that starts no sequence of two,
    three or four bytes stands for itself. *)
Definition utf8_head (c0 : ascii) (r0 : string) : N * nat :=
  let b0 := N_of_ascii c0 in
  if (b0 <? 192)%N then (b0, 0)
  else
    match r0 with
    | String c1 r1 =>
        if (b0 <? 224)%N then
          if is_cont c1 then (((b0 - 192) * 64 + cont_bits c1)%N, 1)
          else (b0, 0)
        else
          match r1 with
          | String c2 r2 =>
              if (b0 <? 240)%N then
                if is_cont c1 && is_cont c2
                then (((b0 - 224) * 4096 + cont_bits c1 * 64
                       + cont_bits c2)%N, 2)
                else (b0, 0)
              else
                match r2 with
                | String c3 _ =>
                    if (b0 <? 248)%N && is_cont c1 && is_cont c2 && is_cont c3
                    then (((b0 - 240) * 262144 + cont_bits c1 * 4096
                           + cont_bits c2 * 64 + cont_bits c3)%N, 3)
                    else (b0, 0)
                | EmptyString => (b0, 0)
                end
          | EmptyString => (b0, 0)
          end
    | EmptyString => (b0, 0)
    end.

(** The code points of a text from its UTF-8 bytes. *)
Fixpoint utf8_decode (s : string) : list N :=
  match s with
  | EmptyString => []
  | String c0 r0 =>
      match utf8_head c0 r0 with
      | (cp, 0) => cp :: utf8_decode r0
      | (cp, 1) =>
          match r0 with
          | String _ r1 => cp :: utf8_decode r1
          | _ => [cp]
          end
      | (cp, 2) =>
          match r0 with
          | String _ (String _ r2) => cp :: utf8_decode r2
          | _ => [cp]
          end
      | (cp, _) =>
          match r0 with
          | String _ (String _ (String _ r3)) => cp :: utf8_decode r3
          | _ => [cp]
          end
      end
  end.

(** The UTF-8 bytes of one code point. *)
Definition utf8_encode1 (cp : N) : string :=
  if (cp <? 128)%N then String (ascii_of_N cp) EmptyString
  else if (cp <? 2048)%N then
    String (ascii_of_N (192 + cp / 64))
      (String (ascii_of_N (128 + cp mod 64)) EmptyString)
  else if (cp <? 65536)%N then
    String (ascii_of_N (224 + cp / 4096))
      (String (ascii_of_N (128 + (cp / 64) mod 64))
         (String (ascii_of_N (128 + cp mod 64)) EmptyString))
  else
    String (ascii_of_N (240 + cp / 262144))
      (String (ascii_of_N (128 + (cp / 4096) mod 64))
         (String (ascii_of_N (128 + (cp / 64) mod 64))
            (String (ascii_of_N (128 + cp mod 64)) EmptyString))).

Fixpoint utf8_encode (cps : list N) : string :=
  match cps with
  | [] => EmptyString
  | cp :: rest => utf8_encode1 cp ++ utf8_encode rest
  end.

(** The code points above the ASCII range that [str.upper] changes, each
    with the code points it puts in its place (the full upper-case mapping
    of Unicode 14.0, as CPython 3.11 has it). *)
Definition upper_table : list (N * list N) := [
  (181, [924]); (223, [83; 83]); (224, [192]); (225, [193]); (226, [194]);
   (227, [195]); (228, [196]); (229, [197]); (230, [198]); (231, [199]);
   (232, [200]); (233, [201]); (234, [202]); (235, [203]); (236, [204]);
   (237, [205]); (238, [206]); (239, [207]); (240, [208]); (241, [209]);
   (242, [210]); (243, [211]); (244, [212]); (245, [213]); (246, [214]);
   (248, [216]); (249, [217]); (250, [218]); (251, [219]); (252, [220]);
   (253, [221]); (254, [222]); (255, [376]); (257, [256]); (259, [258]);
   (261, [260]); (263, [262]); (265, [264]); (267, [266]); (269, [268]);
   (271, [270]); (273, [272]); (275, [274]); (277, [276]); (279, [278]);
   (281, [280]); (283, [282]); (285, [284]); (287, [286]); (289, [288]);
   (291, [290]); (293, [292]); (295, [294]); (297, [296]); (299, [298]);
   (301, [300]); (303, [302]); (305, [73]); (307, [306]); (309, [308]);
   (311, [310]); (314, [313]); (316, [315]); (318, [317]); (320, [319]);
   (322, [321]); (324, [323]); (326, [325]); (328, [327]); (329, [700; 78]);
   (331, [330]); (333, [332]); (335, [334]); (337, [336]); (339, [338]);
   (341, [340]); (343, [342]); (345, [344]); (347, [346]); (349, [348]);
   (351, [350]); (353, [352]); (355, [354]); (357, [356]); (359, [358]);
   (361, [360]); (363, [362]); (365, [364]); (367, [366]); (369, [368]);
   (371, [370]); (373, [372]); (375, [374]); (378, [377]); (380, [379]);
   (382, [381]); (383, [83]); (384, [579]); (387, [386]); (389, [388]);
   (392, [391]); (396, [395]); (402, [401]); (405, [502]); (409, [408]);
   (410, [573]); (414, [544]); (417, [416]); (419, [418]); (421, [420]);
   (424, [423]); (429, [428]); (432, [431]); (436, [435]); (438, [437]);
   (441, [440]); (445, [444]); (447, [503]); (453, [452]); (454, [452]);
   (456, [455]); (457, [455]); (459, [458]); (460, [458]); (462, [461]);
   (464, [463]); (466, [465]); (468, [467]); (470, [469]); (472, [471]);
   (474, [473]); (476, [475]); (477, [398]); (479, [478]); (481, [480]);
   (483, [482]); (485, [484]); (487, [486]); (489, [488]); (491, [490]);
   (493, [492]); (495, [494]); (496, [74; 780]); (498, [497]); (499, [497]);
   (501, [500]); (505, [504]); (507, [506]); (509, [508]); (511, [510]);
   (513, [512]); (515, [514]); (517, [516]); (519, [518]); (521, [520]);
   (523, [522]); (525, [524]); (527, [526]); (529, [528]); (531, [530]);
   (533, [532]); (535, [534]); (537, [536]); (539, [538]); (541, [540]);
   (543, [542]); (547, [546]); (549, [548]); (551, [550]); (553, [552]);
   (555, [554]); (557, [556]); (559, [558]); (561, [560]); (563, [562]);
   (572, [571]); (575, [11390]); (576, [11391]); (578, [577]); (583, [582]);
   (585, [584]); (587, [586]); (589, [588]); (591, [590]); (592, [11375]);
   (593, [11373]); (594, [11376]); (595, [385]); (596, [390]); (598, [393]);
   (599, [394]); (601, [399]); (603, [400]); (604, [42923]); (608, [403]);
   (609, [42924]); (611, [404]); (613, [42893]); (614, [42922]);
   (616, [407]); (617, [406]); (618, [42926]); (619, [11362]);
   (620, [42925]); (623, [412]); (625, [11374]); (626, [413]); (629, [415]);
   (637, [11364]); (640, [422]); (642, [42949]); (643, [425]);
   (647, [42929]); (648, [430]); (649, [580]); (650, [433]); (651, [434]);
   (652, [581]); (658, [439]); (669, [42930]); (670, [42928]); (837, [921]);
   (881, [880]); (883, [882]); (887, [886]); (891, [1021]); (892, [1022]);
   (893, [1023]); (912, [921; 776; 769]); (940, [902]); (941, [904]);
   (942, [905]); (943, [906]); (944, [933; 776; 769]); (945, [913]);
   (946, [914]); (947, [915]); (948, [916]); (949, [917]); (950, [918]);
   (951, [919]); (952, [920]); (953, [921]); (954, [922]); (955, [923]);
   (956, [924]); (957, [925]); (958, [926]); (959, [927]); (960, [928]);
   (961, [929]); (962, [931]); (963, [931]); (964, [932]); (965, [933]);
   (966, [934]); (967, [935]); (968, [936]); (969, [937]); (970, [938]);
   (971, [939]); (972, [908]); (973, [910]); (974, [911]); (976, [914]);
   (977, [920]); (981, [934]); (982, [928]); (983, [975]); (985, [984]);
   (987, [986]); (989, [988]); (991, [990]); (993, [992]); (995, [994]);
   (997, [996]); (999, [998]); (1001, [1000]); (1003, [1002]);
   (1005, [1004]); (1007, [1006]); (1008, [922]); (1009, [929]);
   (1010, [1017]); (1011, [895]); (1013, [917]); (1016, [1015]);
   (1019, [1018]); (1072, [1040]); (1073, [1041]); (1074, [1042]);
   (1075, [1043]); (1076, [1044]); (1077, [1045]); (1078, [1046]);
   (1079, [1047]); (1080, [1048]); (1081, [1049]); (1082, [1050]);
   (1083, [1051]); (1084, [1052]); (1085, [1053]); (1086, [1054]);
   (1087, [1055]); (1088, [1056]); (1089, [1057]); (1090, [1058]);
   (1091, [1059]); (1092, [1060]); (1093, [1061]); (1094, [1062]);
   (1095, [1063]); (1096, [1064]); (1097, [1065]); (1098, [1066]);
   (1099, [1067]); (1100, [1068]); (1101, [1069]); (1102, [1070]);
   (1103, [1071]); (1104, [1024]); (1105, [1025]); (1106, [1026]);
   (1107, [1027]); (1108, [1028]); (1109, [1029]); (1110, [1030]);
   (1111, [1031]); (1112, [1032]); (1113, [1033]); (1114, [1034]);
   (1115, [1035]); (1116, [1036]); (1117, [1037]); (1118, [1038]);
   (1119, [1039]); (1121, [1120]); (1123, [1122]); (1125, [1124]);
   (1127, [1126]); (1129, [1128]); (1131, [1130]); (1133, [1132]);
   (1135, [1134]); (1137, [1136]); (1139, [1138]); (1141, [1140]);
   (1143, [1142]); (1145, [1144]); (1147, [1146]); (1149, [1148]);
   (1151, [1150]); (1153, [1152]); (1163, [1162]); (1165, [1164]);
   (1167, [1166]); (1169, [1168]); (1171, [1170]); (1173, [1172]);
   (1175, [1174]); (1177, [1176]); (1179, [1178]); (1181, [1180]);
   (1183, [1182]); (1185, [1184]); (1187, [1186]); (1189, [1188]);
   (1191, [1190]); (1193, [1192]); (1195, [1194]); (1197, [1196]);
   (1199, [1198]); (1201, [1200]); (1203, [1202]); (1205, [1204]);
   (1207, [1206]); (1209, [1208]); (1211, [1210]); (1213, [1212]);
   (1215, [1214]); (1218, [1217]); (1220, [1219]); (1222, [1221]);
   (1224, [1223]); (1226, [1225]); (1228, [1227]); (1230, [1229]);
   (1231, [1216]); (1233, [1232]); (1235, [1234]); (1237, [1236]);
   (1239, [1238]); (1241, [1240]); (1243, [1242]); (1245, [1244]);
   (1247, [1246]); (1249, [1248]); (1251, [1250]); (1253, [1252]);
   (1255, [1254]); (1257, [1256]); (1259, [1258]); (1261, [1260]);
   (1263, [1262]); (1265, [1264]); (1267, [1266]); (1269, [1268]);
   (1271, [1270]); (1273, [1272]); (1275, [1274]); (1277, [1276]);
   (1279, [1278]); (1281, [1280]); (1283, [1282]); (1285, [1284]);
   (1287, [1286]); (1289, [1288]); (1291, [1290]); (1293, [1292]);
   (1295, [1294]); (1297, [1296]); (1299, [1298]); (1301, [1300]);
   (1303, [1302]); (1305, [1304]); (1307, [1306]); (1309, [1308]);
   (1311, [1310]); (1313, [1312]); (1315, [1314]); (1317, [1316]);
   (1319, [1318]); (1321, [1320]); (1323, [1322]); (1325, [1324]);
   (1327, [1326]); (1377, [1329]); (1378, [1330]); (1379, [1331]);
   (1380, [1332]); (1381, [1333]); (1382, [1334]); (1383, [1335]);
   (1384, [1336]); (1385, [1337]); (1386, [1338]); (1387, [1339]);
   (1388, [1340]); (1389, [1341]); (1390, [1342]); (1391, [1343]);
   (1392, [1344]); (1393, [1345]); (1394, [1346]); (1395, [1347]);
   (1396, [1348]); (1397, [1349]); (1398, [1350]); (1399, [1351]);
   (1400, [1352]); (1401, [1353]); (1402, [1354]); (1403, [1355]);
   (1404, [1356]); (1405, [1357]); (1406, [1358]); (1407, [1359]);
   (1408, [1360]); (1409, [1361]); (1410, [1362]); (1411, [1363]);
   (1412, [1364]); (1413, [1365]); (1414, [1366]); (1415, [1333; 1362]);
   (4304, [7312]); (4305, [7313]); (4306, [7314]); (4307, [7315]);
   (4308, [7316]); (4309, [7317]); (4310, [7318]); (4311, [7319]);
   (4312, [7320]); (4313, [7321]); (4314, [7322]); (4315, [7323]);
   (4316, [7324]); (4317, [7325]); (4318, [7326]); (4319, [7327]);
   (4320, [7328]); (4321, [7329]); (4322, [7330]); (4323, [7331]);
   (4324, [7332]); (4325, [7333]); (4326, [7334]); (4327, [7335]);
   (4328, [7336]); (4329, [7337]); (4330, [7338]); (4331, [7339]);
   (4332, [7340]); (4333, [7341]); (4334, [7342]); (4335, [7343]);
   (4336, [7344]); (4337, [7345]); (4338, [7346]); (4339, [7347]);
   (4340, [7348]); (4341, [7349]); (4342, [7350]); (4343, [7351]);
   (4344, [7352]); (4345, [7353]); (4346, [7354]); (4349, [7357]);
   (4350, [7358]); (4351, [7359]); (5112, [5104]); (5113, [5105]);
   (5114, [5106]); (5115, [5107]); (5116, [5108]); (5117, [5109]);
   (7296, [1042]); (7297, [1044]); (7298, [1054]); (7299, [1057]);
   (7300, [1058]); (7301, [1058]); (7302, [1066]); (7303, [1122]);
   (7304, [42570]); (7545, [42877]); (7549, [11363]); (7566, [42950]);
   (7681, [7680]); (7683, [7682]); (7685, [7684]); (7687, [7686]);
   (7689, [7688]); (7691, [7690]); (7693, [7692]); (7695, [7694]);
   (7697, [7696]); (7699, [7698]); (7701, [7700]); (7703, [7702]);
   (7705, [7704]); (7707, [7706]); (7709, [7708]); (7711, [7710]);
   (7713, [7712]); (7715, [7714]); (7717, [7716]); (7719, [7718]);
   (7721, [7720]); (7723, [7722]); (7725, [7724]); (7727, [7726]);
   (7729, [7728]); (7731, [7730]); (7733, [7732]); (7735, [7734]);
   (7737, [7736]); (7739, [7738]); (7741, [7740]); (7743, [7742]);
   (7745, [7744]); (7747, [7746]); (7749, [7748]); (7751, [7750]);
   (7753, [7752]); (7755, [7754]); (7757, [7756]); (7759, [7758]);
   (7761, [7760]); (7763, [7762]); (7765, [7764]); (7767, [7766]);
   (7769, [7768]); (7771, [7770]); (7773, [7772]); (7775, [7774]);
   (7777, [7776]); (7779, [7778]); (7781, [7780]); (7783, [7782]);
   (7785, [7784]); (7787, [7786]); (7789, [7788]); (7791, [7790]);
   (7793, [7792]); (7795, [7794]); (7797, [7796]); (7799, [7798]);
   (7801, [7800]); (7803, [7802]); (7805, [7804]); (7807, [7806]);
   (7809, [7808]); (7811, [7810]); (7813, [7812]); (7815, [7814]);
   (7817, [7816]); (7819, [7818]); (7821, [7820]); (7823, [7822]);
   (7825, [7824]); (7827, [7826]); (7829, [7828]); (7830, [72; 817]);
   (7831, [84; 776]); (7832, [87; 778]); (7833, [89; 778]);
   (7834, [65; 702]); (7835, [7776]); (7841, [7840]); (7843, [7842]);
   (7845, [7844]); (7847, [7846]); (7849, [7848]); (7851, [7850]);
   (7853, [7852]); (7855, [7854]); (7857, [7856]); (7859, [7858]);
   (7861, [7860]); (7863, [7862]); (7865, [7864]); (7867, [7866]);
   (7869, [7868]); (7871, [7870]); (7873, [7872]); (7875, [7874]);
   (7877, [7876]); (7879, [7878]); (7881, [7880]); (7883, [7882]);
   (7885, [7884]); (7887, [7886]); (7889, [7888]); (7891, [7890]);
   (7893, [7892]); (7895, [7894]); (7897, [7896]); (7899, [7898]);
   (7901, [7900]); (7903, [7902]); (7905, [7904]); (7907, [7906]);
   (7909, [7908]); (7911, [7910]); (7913, [7912]); (7915, [7914]);
   (7917, [7916]); (7919, [7918]); (7921, [7920]); (7923, [7922]);
   (7925, [7924]); (7927, [7926]); (7929, [7928]); (7931, [7930]);
   (7933, [7932]); (7935, [7934]); (7936, [7944]); (7937, [7945]);
   (7938, [7946]); (7939, [7947]); (7940, [7948]); (7941, [7949]);
   (7942, [7950]); (7943, [7951]); (7952, [7960]); (7953, [7961]);
   (7954, [7962]); (7955, [7963]); (7956, [7964]); (7957, [7965]);
   (7968, [7976]); (7969, [7977]); (7970, [7978]); (7971, [7979]);
   (7972, [7980]); (7973, [7981]); (7974, [7982]); (7975, [7983]);
   (7984, [7992]); (7985, [7993]); (7986, [7994]); (7987, [7995]);
   (7988, [7996]); (7989, [7997]); (7990, [7998]); (7991, [7999]);
   (8000, [8008]); (8001, [8009]); (8002, [8010]); (8003, [8011]);
   (8004, [8012]); (8005, [8013]); (8016, [933; 787]); (8017, [8025]);
   (8018, [933; 787; 768]); (8019, [8027]); (8020, [933; 787; 769]);
   (8021, [8029]); (8022, [933; 787; 834]); (8023, [8031]); (8032, [8040]);
   (8033, [8041]); (8034, [8042]); (8035, [8043]); (8036, [8044]);
   (8037, [8045]); (8038, [8046]); (8039, [8047]); (8048, [8122]);
   (8049, [8123]); (8050, [8136]); (8051, [8137]); (8052, [8138]);
   (8053, [8139]); (8054, [8154]); (8055, [8155]); (8056, [8184]);
   (8057, [8185]); (8058, [8170]); (8059, [8171]); (8060, [8186]);
   (8061, [8187]); (8064, [7944; 921]); (8065, [7945; 921]);
   (8066, [7946; 921]); (8067, [7947; 921]); (8068, [7948; 921]);
   (8069, [7949; 921]); (8070, [7950; 921]); (8071, [7951; 921]);
   (8072, [7944; 921]); (8073, [7945; 921]); (8074, [7946; 921]);
   (8075, [7947; 921]); (8076, [7948; 921]); (8077, [7949; 921]);
   (8078, [7950; 921]); (8079, [7951; 921]); (8080, [7976; 921]);
   (8081, [7977; 921]); (8082, [7978; 921]); (8083, [7979; 921]);
   (8084, [7980; 921]); (8085, [7981; 921]); (8086, [7982; 921]);
   (8087, [7983; 921]); (8088, [7976; 921]); (8089, [7977; 921]);
   (8090, [7978; 921]); (8091, [7979; 921]); (8092, [7980; 921]);
   (8093, [7981; 921]); (8094, [7982; 921]); (8095, [7983; 921]);
   (8096, [8040; 921]); (8097, [8041; 921]); (8098, [8042; 921]);
   (8099, [8043; 921]); (8100, [8044; 921]); (8101, [8045; 921]);
   (8102, [8046; 921]); (8103, [8047; 921]); (8104, [8040; 921]);
   (8105, [8041; 921]); (8106, [8042; 921]); (8107, [8043; 921]);
   (8108, [8044; 921]); (8109, [8045; 921]); (8110, [8046; 921]);
   (8111, [8047; 921]); (8112, [8120]); (8113, [8121]); (8114, [8122; 921]);
   (8115, [913; 921]); (8116, [902; 921]); (8118, [913; 834]);
   (8119, [913; 834; 921]); (8124, [913; 921]); (8126, [921]);
   (8130, [8138; 921]); (8131, [919; 921]); (8132, [905; 921]);
   (8134, [919; 834]); (8135, [919; 834; 921]); (8140, [919; 921]);
   (8144, [8152]); (8145, [8153]); (8146, [921; 776; 768]);
   (8147, [921; 776; 769]); (8150, [921; 834]); (8151, [921; 776; 834]);
   (8160, [8168]); (8161, [8169]); (8162, [933; 776; 768]);
   (8163, [933; 776; 769]); (8164, [929; 787]); (8165, [8172]);
   (8166, [933; 834]); (8167, [933; 776; 834]); (8178, [8186; 921]);
   (8179, [937; 921]); (8180, [911; 921]); (8182, [937; 834]);
   (8183, [937; 834; 921]); (8188, [937; 921]); (8526, [8498]);
   (8560, [8544]); (8561, [8545]); (8562, [8546]); (8563, [8547]);
   (8564, [8548]); (8565, [8549]); (8566, [8550]); (8567, [8551]);
   (8568, [8552]); (8569, [8553]); (8570, [8554]); (8571, [8555]);
   (8572, [8556]); (8573, [8557]); (8574, [8558]); (8575, [8559]);
   (8580, [8579]); (9424, [9398]); (9425, [9399]); (9426, [9400]);
   (9427, [9401]); (9428, [9402]); (9429, [9403]); (9430, [9404]);
   (9431, [9405]); (9432, [9406]); (9433, [9407]); (9434, [9408]);
   (9435, [9409]); (9436, [9410]); (9437, [9411]); (9438, [9412]);
   (9439, [9413]); (9440, [9414]); (9441, [9415]); (9442, [9416]);
   (9443, [9417]); (9444, [9418]); (9445, [9419]); (9446, [9420]);
   (9447, [9421]); (9448, [9422]); (9449, [9423]); (11312, [11264]);
   (11313, [11265]); (11314, [11266]); (11315, [11267]); (11316, [11268]);
   (11317, [11269]); (11318, [11270]); (11319, [11271]); (11320, [11272]);
   (11321, [11273]); (11322, [11274]); (11323, [11275]); (11324, [11276]);
   (11325, [11277]); (11326, [11278]); (11327, [11279]); (11328, [11280]);
   (11329, [11281]); (11330, [11282]); (11331, [11283]); (11332, [11284]);
   (11333, [11285]); (11334, [11286]); (11335, [11287]); (11336, [11288]);
   (11337, [11289]); (11338, [11290]); (11339, [11291]); (11340, [11292]);
   (11341, [11293]); (11342, [11294]); (11343, [11295]); (11344, [11296]);
   (11345, [11297]); (11346, [11298]); (11347, [11299]); (11348, [11300]);
   (11349, [11301]); (11350, [11302]); (11351, [11303]); (11352, [11304]);
   (11353, [11305]); (11354, [11306]); (11355, [11307]); (11356, [11308]);
   (11357, [11309]); (11358, [11310]); (11359, [11311]); (11361, [11360]);
   (11365, [570]); (11366, [574]); (11368, [11367]); (11370, [11369]);
   (11372, [11371]); (11379, [11378]); (11382, [11381]); (11393, [11392]);
   (11395, [11394]); (11397, [11396]); (11399, [11398]); (11401, [11400]);
   (11403, [11402]); (11405, [11404]); (11407, [11406]); (11409, [11408]);
   (11411, [11410]); (11413, [11412]); (11415, [11414]); (11417, [11416]);
   (11419, [11418]); (11421, [11420]); (11423, [11422]); (11425, [11424]);
   (11427, [11426]); (11429, [11428]); (11431, [11430]); (11433, [11432]);
   (11435, [11434]); (11437, [11436]); (11439, [11438]); (11441, [11440]);
   (11443, [11442]); (11445, [11444]); (11447, [11446]); (11449, [11448]);
   (11451, [11450]); (11453, [11452]); (11455, [11454]); (11457, [11456]);
   (11459, [11458]); (11461, [11460]); (11463, [11462]); (11465, [11464]);
   (11467, [11466]); (11469, [11468]); (11471, [11470]); (11473, [11472]);
   (11475, [11474]); (11477, [11476]); (11479, [11478]); (11481, [11480]);
   (11483, [11482]); (11485, [11484]); (11487, [11486]); (11489, [11488]);
   (11491, [11490]); (11500, [11499]); (11502, [11501]); (11507, [11506]);
   (11520, [4256]); (11521, [4257]); (11522, [4258]); (11523, [4259]);
   (11524, [4260]); (11525, [4261]); (11526, [4262]); (11527, [4263]);
   (11528, [4264]); (11529, [4265]); (11530, [4266]); (11531, [4267]);
   (11532, [4268]); (11533, [4269]); (11534, [4270]); (11535, [4271]);
   (11536, [4272]); (11537, [4273]); (11538, [4274]); (11539, [4275]);
   (11540, [4276]); (11541, [4277]); (11542, [4278]); (11543, [4279]);
   (11544, [4280]); (11545, [4281]); (11546, [4282]); (11547, [4283]);
   (11548, [4284]); (11549, [4285]); (11550, [4286]); (11551, [4287]);
   (11552, [4288]); (11553, [4289]); (11554, [4290]); (11555, [4291]);
   (11556, [4292]); (11557, [4293]); (11559, [4295]); (11565, [4301]);
   (42561, [42560]); (42563, [42562]); (42565, [42564]); (42567, [42566]);
   (42569, [42568]); (42571, [42570]); (42573, [42572]); (42575, [42574]);
   (42577, [42576]); (42579, [42578]); (42581, [42580]); (42583, [42582]);
   (42585, [42584]); (42587, [42586]); (42589, [42588]); (42591, [42590]);
   (42593, [42592]); (42595, [42594]); (42597, [42596]); (42599, [42598]);
   (42601, [42600]); (42603, [42602]); (42605, [42604]); (42625, [42624]);
   (42627, [42626]); (42629, [42628]); (42631, [42630]); (42633, [42632]);
   (42635, [42634]); (42637, [42636]); (42639, [42638]); (42641, [42640]);
   (42643, [42642]); (42645, [42644]); (42647, [42646]); (42649, [42648]);
   (42651, [42650]); (42787, [42786]); (42789, [42788]); (42791, [42790]);
   (42793, [42792]); (42795, [42794]); (42797, [42796]); (42799, [42798]);
   (42803, [42802]); (42805, [42804]); (42807, [42806]); (42809, [42808]);
   (42811, [42810]); (42813, [42812]); (42815, [42814]); (42817, [42816]);
   (42819, [42818]); (42821, [42820]); (42823, [42822]); (42825, [42824]);
   (42827, [42826]); (42829, [42828]); (42831, [42830]); (42833, [42832]);
   (42835, [42834]); (42837, [42836]); (42839, [42838]); (42841, [42840]);
   (42843, [42842]); (42845, [42844]); (42847, [42846]); (42849, [42848]);
   (42851, [42850]); (42853, [42852]); (42855, [42854]); (42857, [42856]);
   (42859, [42858]); (42861, [42860]); (42863, [42862]); (42874, [42873]);
   (42876, [42875]); (42879, [42878]); (42881, [42880]); (42883, [42882]);
   (42885, [42884]); (42887, [42886]); (42892, [42891]); (42897, [42896]);
   (42899, [42898]); (42900, [42948]); (42903, [42902]); (42905, [42904]);
   (42907, [42906]); (42909, [42908]); (42911, [42910]); (42913, [42912]);
   (42915, [42914]); (42917, [42916]); (42919, [42918]); (42921, [42920]);
   (42933, [42932]); (42935, [42934]); (42937, [42936]); (42939, [42938]);
   (42941, [42940]); (42943, [42942]); (42945, [42944]); (42947, [42946]);
   (42952, [42951]); (42954, [42953]); (42961, [42960]); (42967, [42966]);
   (42969, [42968]); (42998, [42997]); (43859, [42931]); (43888, [5024]);
   (43889, [5025]); (43890, [5026]); (43891, [5027]); (43892, [5028]);
   (43893, [5029]); (43894, [5030]); (43895, [5031]); (43896, [5032]);
   (43897, [5033]); (43898, [5034]); (43899, [5035]); (43900, [5036]);
   (43901, [5037]); (43902, [5038]); (43903, [5039]); (43904, [5040]);
   (43905, [5041]); (43906, [5042]); (43907, [5043]); (43908, [5044]);
   (43909, [5045]); (43910, [5046]); (43911, [5047]); (43912, [5048]);
   (43913, [5049]); (43914, [5050]); (43915, [5051]); (43916, [5052]);
   (43917, [5053]); (43918, [5054]); (43919, [5055]); (43920, [5056]);
   (43921, [5057]); (43922, [5058]); (43923, [5059]); (43924, [5060]);
   (43925, [5061]); (43926, [5062]); (43927, [5063]); (43928, [5064]);
   (43929, [5065]); (43930, [5066]); (43931, [5067]); (43932, [5068]);
   (43933, [5069]); (43934, [5070]); (43935, [5071]); (43936, [5072]);
   (43937, [5073]); (43938, [5074]); (43939, [5075]); (43940, [5076]);
   (43941, [5077]); (43942, [5078]); (43943, [5079]); (43944, [5080]);
   (43945, [5081]); (43946, [5082]); (43947, [5083]); (43948, [5084]);
   (43949, [5085]); (43950, [5086]); (43951, [5087]); (43952, [5088]);
   (43953, [5089]); (43954, [5090]); (43955, [5091]); (43956, [5092]);
   (43957, [5093]); (43958, [5094]); (43959, [5095]); (43960, [5096]);
   (43961, [5097]); (43962, [5098]); (43963, [5099]); (43964, [5100]);
   (43965, [5101]); (43966, [5102]); (43967, [5103]); (64256, [70; 70]);
   (64257, [70; 73]); (64258, [70; 76]); (64259, [70; 70; 73]);
   (64260, [70; 70; 76]); (64261, [83; 84]); (64262, [83; 84]);
   (64275, [1348; 1350]); (64276, [1348; 1333]); (64277, [1348; 1339]);
   (64278, [1358; 1350]); (64279, [1348; 1341]); (65345, [65313]);
   (65346, [65314]); (65347, [65315]); (65348, [65316]); (65349, [65317]);
   (65350, [65318]); (65351, [65319]); (65352, [65320]); (65353, [65321]);
   (65354, [65322]); (65355, [65323]); (65356, [65324]); (65357, [65325]);
   (65358, [65326]); (65359, [65327]); (65360, [65328]); (65361, [65329]);
   (65362, [65330]); (65363, [65331]); (65364, [65332]); (65365, [65333]);
   (65366, [65334]); (65367, [65335]); (65368, [65336]); (65369, [65337]);
   (65370, [65338]); (66600, [66560]); (66601, [66561]); (66602, [66562]);
   (66603, [66563]); (66604, [66564]); (66605, [66565]); (66606, [66566]);
   (66607, [66567]); (66608, [66568]); (66609, [66569]); (66610, [66570]);
   (66611, [66571]); (66612, [66572]); (66613, [66573]); (66614, [66574]);
   (66615, [66575]); (66616, [66576]); (66617, [66577]); (66618, [66578]);
   (66619, [66579]); (66620, [66580]); (66621, [66581]); (66622, [66582]);
   (66623, [66583]); (66624, [66584]); (66625, [66585]); (66626, [66586]);
   (66627, [66587]); (66628, [66588]); (66629, [66589]); (66630, [66590]);
   (66631, [66591]); (66632, [66592]); (66633, [66593]); (66634, [66594]);
   (66635, [66595]); (66636, [66596]); (66637, [66597]); (66638, [66598]);
   (66639, [66599]); (66776, [66736]); (66777, [66737]); (66778, [66738]);
   (66779, [66739]); (66780, [66740]); (66781, [66741]); (66782, [66742]);
   (66783, [66743]); (66784, [66744]); (66785, [66745]); (66786, [66746]);
   (66787, [66747]); (66788, [66748]); (66789, [66749]); (66790, [66750]);
   (66791, [66751]); (66792, [66752]); (66793, [66753]); (66794, [66754]);
   (66795, [66755]); (66796, [66756]); (66797, [66757]); (66798, [66758]);
   (66799, [66759]); (66800, [66760]); (66801, [66761]); (66802, [66762]);
   (66803, [66763]); (66804, [66764]); (66805, [66765]); (66806, [66766]);
   (66807, [66767]); (66808, [66768]); (66809, [66769]); (66810, [66770]);
   (66811, [66771]); (66967, [66928]); (66968, [66929]); (66969, [66930]);
   (66970, [66931]); (66971, [66932]); (66972, [66933]); (66973, [66934]);
   (66974, [66935]); (66975, [66936]); (66976, [66937]); (66977, [66938]);
   (66979, [66940]); (66980, [66941]); (66981, [66942]); (66982, [66943]);
   (66983, [66944]); (66984, [66945]); (66985, [66946]); (66986, [66947]);
   (66987, [66948]); (66988, [66949]); (66989, [66950]); (66990, [66951]);
   (66991, [66952]); (66992, [66953]); (66993, [66954]); (66995, [66956]);
   (66996, [66957]); (66997, [66958]); (66998, [66959]); (66999, [66960]);
   (67000, [66961]); (67001, [66962]); (67003, [66964]); (67004, [66965]);
   (68800, [68736]); (68801, [68737]); (68802, [68738]); (68803, [68739]);
   (68804, [68740]); (68805, [68741]); (68806, [68742]); (68807, [68743]);
   (68808, [68744]); (68809, [68745]); (68810, [68746]); (68811, [68747]);
   (68812, [68748]); (68813, [68749]); (68814, [68750]); (68815, [68751]);
   (68816, [68752]); (68817, [68753]); (68818, [68754]); (68819, [68755]);
   (68820, [68756]); (68821, [68757]); (68822, [68758]); (68823, [68759]);
   (68824, [68760]); (68825, [68761]); (68826, [68762]); (68827, [68763]);
   (68828, [68764]); (68829, [68765]); (68830, [68766]); (68831, [68767]);
   (68832, [68768]); (68833, [68769]); (68834, [68770]); (68835, [68771]);
   (68836, [68772]); (68837, [68773]); (68838, [68774]); (68839, [68775]);
   (68840, [68776]); (68841, [68777]); (68842, [68778]); (68843, [68779]);
   (68844, [68780]); (68845, [68781]); (68846, [68782]); (68847, [68783]);
   (68848, [68784]); (68849, [68785]); (68850, [68786]); (71872, [71840]);
   (71873, [71841]); (71874, [71842]); (71875, [71843]); (71876, [71844]);
   (71877, [71845]); (71878, [71846]); (71879, [71847]); (71880, [71848]);
   (71881, [71849]); (71882, [71850]); (71883, [71851]); (71884, [71852]);
   (71885, [71853]); (71886, [71854]); (71887, [71855]); (71888, [71856]);
   (71889, [71857]); (71890, [71858]); (71891, [71859]); (71892, [71860]);
   (71893, [71861]); (71894, [71862]); (71895, [71863]); (71896, [71864]);
   (71897, [71865]); (71898, [71866]); (71899, [71867]); (71900, [71868]);
   (71901, [71869]); (71902, [71870]); (71903, [71871]); (93792, [93760]);
   (93793, [93761]); (93794, [93762]); (93795, [93763]); (93796, [93764]);
   (93797, [93765]); (93798, [93766]); (93799, [93767]); (93800, [93768]);
   (93801, [93769]); (93802, [93770]); (93803, [93771]); (93804, [93772]);
   (93805, [93773]); (93806, [93774]); (93807, [93775]); (93808, [93776]);
   (93809, [93777]); (93810, [93778]); (93811, [93779]); (93812, [93780]);
   (93813, [93781]); (93814, [93782]); (93815, [93783]); (93816, [93784]);
   (93817, [93785]); (93818, [93786]); (93819, [93787]); (93820, [93788]);
   (93821, [93789]); (93822, [93790]); (93823, [93791]); (125218, [125184]);
   (125219, [125185]); (125220, [125186]); (125221, [125187]);
   (125222, [125188]); (125223, [125189]); (125224, [125190]);
   (125225, [125191]); (125226, [125192]); (125227, [125193]);
   (125228, [125194]); (125229, [125195]); (125230, [125196]);
   (125231, [125197]); (125232, [125198]); (125233, [125199]);
   (125234, [125200]); (125235, [125201]); (125236, [125202]);
   (125237, [125203]); (125238, [125204]); (125239, [125205]);
   (125240, [125206]); (125241, [125207]); (125242, [125208]);
   (125243, [125209]); (125244, [125210]); (125245, [125211]);
   (125246, [125212]); (125247, [125213]); (125248, [125214]);
   (125249, [125215]); (125250, [125216]); (125251, [125217])
]%N.

Fixpoint table_find (table : list (N * list N)) (cp : N) : option (list N) :=
  match table with
  | [] => None
  | (k, u) :: rest => if (k =? cp)%N then Some u else table_find rest cp
  end.

(** The upper-casing of one code point: the letters a-z become A-Z, a code
    point of the table becomes its entry, every other one stays. *)
Definition to_upper (cp : N) : list N :=
  if (cp <? 128)%N then
    [if (97 <=? cp)%N && (cp <=? 122)%N then (cp - 32)%N else cp]
  else
    match table_find upper_table cp with
    | Some u => u
    | None => [cp]
    end.

(** [str.upper]: code point by code point. *)
Definition upper (s : string) : string :=
  utf8_encode (flat_map to_upper (utf8_decode s)).

(** [v.upper()]: a method of [str], [bytes] and [bytearray]; each returns a
    value of its own type. *)
Definition py_upper (v : pyval) : result pyval :=
  match v with
  | PStr s => Ok (PStr (upper s))
  | PBytes mutable b => Ok (PBytes mutable (bytes_upper b))
  | _ => Raise AttributeError
  end.

(** [k == v] for a string [k]: only an equal [str] is equal to it. *)
Definition str_eq (k : string) (v : pyval) : bool :=
  match v with
  | PStr s => String.eqb k s
  | _ => false
  end.

(** [x in l] for a list of strings [l]: only an equal string is a member. *)
Definition py_in (v : pyval) (l : list string) : bool :=
  match v with
  | PStr s => existsb (String.eqb s) l
  | _ => false
  end.

(** ** Regular expressions: the fragment [CPE_REGEX] is written in *)

Inductive regex : Type :=
| Str (s : string)                 (* a literal *)
| PlusNot (c : ascii)              (* [^c]+ , greedy *)
| Opt (r : regex)                  (* r? , greedy *)
| Cat (r1 r2 : regex)
| Grp (name : string) (r : regex). (* (?P<name>r), r without a group *)

(** The groups of a match, in the order of their numbers. *)
Definition Match : Type := list (string * string).

Fixpoint strip_prefix (p s : string) : option string :=
  match p, s with
  | EmptyString, _ => Some s
  | String a p', String b s' => if Ascii.eqb a b then strip_prefix p' s' else None
  | String _ _, EmptyString => None
  end.

(** The text consumed between the input [s] and its suffix [t]. *)
Definition taken (s t : string) : string :=
  String.substring 0 (String.length s - String.length t) s.

Section Backtracking.
Context {A : Type}.

(** [[^c]*] then the continuation: the longest run first, then shorter ones. *)
Fixpoint star_not (c : ascii) (s : string) (k : string -> option A) : option A :=
  match s with
  | EmptyString => k s
  | String a r =>
      if Ascii.eqb a c then k s
      else match star_not c r k with
           | Some x => Some x
           | None => k s
           end
  end.

Definition plus_not (c : ascii) (s : string) (k : string -> option A) : option A :=
  match s with
  | EmptyString => None
  | String a r => if Ascii.eqb a c then None else star_not c r k
  end.

(** The matcher tries the alternatives in the order of the [re] module
    and hands the rest of the input and the groups so far (latest first)
    to the continuation. *)
Fixpoint rmatch (r : regex) (s : string) (g : Match)
    (k : string -> Match -> option A) : option A :=
  match r with
  | Str p => match strip_prefix p s with
             | Some t => k t g
             | None => None
             end
  | PlusNot c => plus_not c s (fun t => k t g)
  | Opt r1 => match rmatch r1 s g k with
              | Some x => Some x
              | None => k s g
              end
  | Cat r1 r2 => rmatch r1 s g (fun t g' => rmatch r2 t g' k)
  | Grp name r1 => rmatch r1 s g (fun t g' => k t ((name, taken s t) :: g'))
  end.
End Backtracking.

(** The names of the groups, in the order of their numbers. *)
Fixpoint names (r : regex) : list string :=
  match r with
  | Str _ | PlusNot _ => []
  | Opt r1 => names r1
  | Cat r1 r2 => names r1 ++ names r2
  | Grp name r1 => name :: names r1
  end.

(** Every group takes part in every match: no group is optional, none is
    nested in another. *)
Fixpoint definite (r : regex) : bool :=
  match r with
  | Str _ | PlusNot _ => true
  | Opt r1 => definite r1 && bool_decide (names r1 = [])
  | Cat r1 r2 => definite r1 && definite r2
  | Grp _ r1 => definite r1 && bool_decide (names r1 = [])
  end.

(** [pattern.match(s)]: anchored at the start, free at the end. *)
Definition re_match (r : regex) (s : string) : option Match :=
  rmatch r s [] (fun _ g => Some (rev g)).

(** [m.group(name)]. *)
Fixpoint group (m : Match) (name : string) : pyval :=
  match m with
  | [] => PNone
  | (n, text) :: rest => if String.eqb n name then PStr text else group rest name
  end.

(** [m.group(i)] for a group number [i >= 1]. *)
Definition group_nth (m : Match) (i : nat) : pyval :=
  match nth_error m (i - 1) with
  | Some (_, text) => PStr text
  | None => PNone
  end.

(** ** vulndb/lib/__init__.py *)

Definition KNOWN_PKG_TYPES : list string :=
  ["composer"; "maven"; "npm"; "nuget"; "pypi"; "rubygems"; "golang"].

(** cpe:?:[^:]+:[^:]+:(?P<vendor>[^:]+):(?P<package>[^:]+):(?P<version>[^:]+) *)
Definition CPE_REGEX : regex :=
  Cat (Str "cpe") (Cat (Opt (Str ":")) (Cat (Str ":")
  (Cat (PlusNot ":") (Cat (Str ":")
  (Cat (PlusNot ":") (Cat (Str ":")
  (Cat (Grp "vendor" (PlusNot ":")) (Cat (Str ":")
  (Cat (Grp "package" (PlusNot ":")) (Cat (Str ":")
  (Grp "version" (PlusNot ":")))))))))))).

(** [CPE_REGEX.match(v)]: [TypeError] unless [v] is a string. *)
Definition CPE_REGEX_match (v : pyval) : result (option Match) :=
  match v with
  | PStr s => Ok (re_match CPE_REGEX s)
  | _ => Raise TypeError
  end.

(** [parts.group(name)] where [parts] may be [None]. *)
Definition parts_group (parts : option Match) (name : string) : result pyval :=
  match parts with
  | Some m => Ok (group m name)
  | None => Raise AttributeError
  end.

Module Severity.
Inductive t : Type := UNSPECIFIED | LOW | MEDIUM | HIGH | CRITICAL.

Definition value (s : t) : string :=
  match s with
  | UNSPECIFIED => "UNSPECIFIED"
  | LOW => "LOW"
  | MEDIUM => "MEDIUM"
  | HIGH => "HIGH"
  | CRITICAL => "CRITICAL"
  end.

(** The name of a member, as written in the class body. *)
Definition name (s : t) : string :=
  match s with
  | UNSPECIFIED => "UNSPECIFIED"
  | LOW => "LOW"
  | MEDIUM => "MEDIUM"
  | HIGH => "HIGH"
  | CRITICAL => "CRITICAL"
  end.

(** [Severity.__members__.items()], in the order of definition. *)
Definition __members__ : list (string * t) :=
  [("UNSPECIFIED", UNSPECIFIED); ("LOW", LOW); ("MEDIUM", MEDIUM);
   ("HIGH", HIGH); ("CRITICAL", CRITICAL)].

(** The loop [for k, v in ...: if k == u: return v], then the default. *)
Fixpoint lookup_member (items : list (string * t)) (u : pyval) : t :=
  match items with
  | [] => UNSPECIFIED
  | (k, v) :: rest => if str_eq k u then v else lookup_member rest u
  end.

Definition from_str (sevstr : pyval) : result t :=
  sevstr <- match sevstr with
            | PDict d => dict_getitem d "value"
            | _ => Ok sevstr
            end ;;
  if negb (truthy sevstr) then Ok UNSPECIFIED
  else u <- py_upper sevstr ;; Ok (lookup_member __members__ u).

Definition __str__ (s : t) : string := value s.
End Severity.

(** A [datetime] as far as the format of [convert_time] fills it. *)
Record datetime : Type := Datetime {
  dt_year : Z; dt_month : Z; dt_day : Z; dt_hour : Z; dt_minute : Z
}.

(** What [convert_time] returns: the parsed time, or its argument as given. *)
Inductive timeval : Type :=
| Parsed (dt : datetime)
| AsGiven (v : pyval).

Section ConvertTime.
(** [datetime.strptime(s, "%Y-%m-%dT%H:%Mz")] of the standard library,
    [None] where it raises. *)
Variable strptime : string -> option datetime.

(** Every exception of the [try] block is caught, also the [TypeError]
    for an argument that is not a string. *)
Definition convert_time (time_str : pyval) : timeval :=
  match time_str with
  | PStr s => match strptime s with
              | Some dt => Parsed dt
              | None => AsGiven time_str
              end
  | _ => AsGiven time_str
  end.
End ConvertTime.

Module VulnerabilityLocation.
Record t : Type := Build {
  cpe_uri : pyval;
  package : pyval;
  version : pyval
}.

Definition from_dict (cpe_uri fixed_location : pyval) : result (option t) :=
  if negb (truthy fixed_location) then Ok None
  else
    parts <- CPE_REGEX_match cpe_uri ;;
    match parts with
    | Some m => Ok (Some (Build fixed_location (group_nth m 2) (group_nth m 3)))
    | None => Ok None
    end.
End VulnerabilityLocation.

Module VulnerabilityDetail.
Record t : Type := Build {
  cpe_uri : pyval;
  package : pyval;
  min_affected_version : pyval;
  max_affected_version : pyval;
  severity : Severity.t;
  description : pyval;
  fixed_location : option VulnerabilityLocation.t;
  package_type : pyval;
  is_obsolete : pyval;
  source_update_time : timeval
}.

Definition get_type (cpe_uri package_type : pyval) : result pyval :=
  if py_in package_type KNOWN_PKG_TYPES then Ok package_type
  else
    parts <- CPE_REGEX_match cpe_uri ;;
    match parts with
    | Some m =>
        let type := group m "vendor" in
        if py_in type KNOWN_PKG_TYPES then Ok type
        else Ok type
    | None => Ok PNone
    end.

(** [x if x else parts.group(name)]. *)
Definition or_group (x : pyval) (parts : option Match) (name : string)
    : result pyval :=
  if truthy x then Ok x else parts_group parts name.

Section Init.
Variable strptime : string -> option datetime.

Definition __init__ (cpe_uri package min_affected_version
    max_affected_version severity description fixed_location package_type
    is_obsolete source_update_time : pyval) : result t :=
  parts <- CPE_REGEX_match cpe_uri ;;
  pkg <- or_group package parts "package" ;;
  vmin <- or_group min_affected_version parts "version" ;;
  vmax <- or_group max_affected_version parts "version" ;;
  sev <- Severity.from_str severity ;;
  fixed <- VulnerabilityLocation.from_dict cpe_uri fixed_location ;;
  ptype <- get_type cpe_uri package_type ;;
  Ok (Build cpe_uri pkg vmin vmax sev description fixed ptype is_obsolete
        (convert_time strptime source_update_time)).

Definition from_dict (detail : pyval) : result t :=
  cpe_uri <- py_get detail "cpe_uri" ;;
  package <- py_get detail "package" ;;
  vmin <- py_get detail "min_affected_version" ;;
  vmax <- py_get detail "max_affected_version" ;;
  severity <- py_get detail "severity" ;;
  description <- py_get detail "description" ;;
  fixed_location <- py_get detail "fixed_location" ;;
  package_type <- py_get detail "package_type" ;;
  is_obsolete <- py_get detail "is_obsolete" ;;
  source_update_time <- py_get detail "source_update_time" ;;
  __init__ cpe_uri package vmin vmax severity description fixed_location
    package_type is_obsolete source_update_time.
End Init.
End VulnerabilityDetail.

Module Vulnerability.
Record t : Type := Build {
  id : pyval;
  problem_type : pyval;
  score : pyval;
  severity : Severity.t;
  description : pyval;
  related_urls : pyval;
  details : list VulnerabilityDetail.t;
  cvss_v3 : pyval;
  source_update_time : timeval
}.

Section Init.
Variable strptime : string -> option datetime.

Definition __init__ (vid problem_type score severity description
    related_urls : pyval) (details : list VulnerabilityDetail.t)
    (cvss_v3 source_update_time : pyval) : result t :=
  sev <- Severity.from_str severity ;;
  Ok (Build vid problem_type score sev description related_urls details
        cvss_v3 (convert_time strptime source_update_time)).
End Init.
End Vulnerability.

Module PackageIssue.
Record t : Type := Build {
  affected_location : option VulnerabilityLocation.t;
  fixed_location : option VulnerabilityLocation.t
}.

Definition __init__ (affected_location fixed_location : pyval) : result t :=
  affected <- VulnerabilityLocation.from_dict affected_location PNone ;;
  fixed <- VulnerabilityLocation.from_dict fixed_location PNone ;;
  Ok (Build affected fixed).

Definition from_dict (package_issue : pyval) : result t :=
  affected_location <- py_get package_issue "affected_location" ;;
  fixed_location <- py_get package_issue "fixed_location" ;;
  __init__ affected_location fixed_location.
End PackageIssue.

Module VulnerabilityOccurrence.
Record t : Type := Build {
  id : pyval;
  problem_type : pyval;
  type : pyval;
  severity : Severity.t;
  cvss_score : pyval;
  package_issue : PackageIssue.t;
  short_description : pyval;
  long_description : pyval;
  related_urls : pyval;
  effective_severity : Severity.t
}.
End VulnerabilityOccurrence.

(** ** vulndb/lib/db.py and vulndb/lib/utils.py: store, index and queries *)

Module Db.

(** Modelled from the spec: the text of a stored field (documents of
    vulndb/lib/db.py hold strings); a field that is no string has none. *)
Definition text (v : pyval) : string :=
  match v with
  | PStr s => s
  | _ => EmptyString
  end.

(** Modelled from the spec: [parse_cpe] of vulndb/lib/utils.py, the CPE
    Decomposer of section 4.1, which extracts (vendor, package, version)
    with the CPE grammar and reports "no match" for any other input. *)
Definition parse_cpe (cpe_uri : pyval) : option (string * string * string) :=
  match cpe_uri with
  | PStr s =>
      match re_match CPE_REGEX s with
      | Some m => Some (text (group m "vendor"), text (group m "package"),
                        text (group m "version"))
      | None => None
      end
  | _ => None
  end.

(** Modelled from the spec: the vendor that [parse_cpe] extracts, used by
    the vendor-scoped search of section 4.5. *)
Definition cpe_vendor (cpe_uri : pyval) : option string :=
  match parse_cpe cpe_uri with
  | Some (vendor, _, _) => Some vendor
  | None => None
  end.

(** *** Version Matcher *)

(** Modelled from the spec: a version ordering rule of section 4.2, as a
    three-way comparison of version strings. *)
Definition ordering : Type := string -> string -> comparison.

(** Modelled from the spec: the fallback rule of section 4.2, the
    lexicographic order of the version strings. *)
Definition lexicographic : ordering := String.compare.

(** Modelled from the spec: [a <= b] under an ordering rule (section 4.2). *)
Definition le_under (cmp : ordering) (a b : string) : bool :=
  match cmp a b with
  | Gt => false
  | _ => true
  end.

(** Modelled from the spec: the Version Matcher of section 4.2 (in
    vulndb/lib/db.py): inclusive range membership, an absent bound does
    not constrain. *)
Definition matches (cmp : ordering) (queried_version : string)
    (min_affected_version max_affected_version : option string) : bool :=
  match min_affected_version with
  | Some lo => le_under cmp lo queried_version
  | None => true
  end
  &&
  match max_affected_version with
  | Some hi => le_under cmp queried_version hi
  | None => true
  end.

(** Modelled from the spec: a version bound of a stored detail (section
    4.2): absent unless it is a non-empty string. *)
Definition bound (v : pyval) : option string :=
  match v with
  | PStr s => if String.eqb s EmptyString then None else Some s
  | _ => None
  end.

(** Modelled from the spec: the exact match of a stored field with a
    queried string (section 4.4). *)
Definition is_str (v : pyval) (s : string) : bool :=
  match v with
  | PStr t => String.eqb t s
  | _ => false
  end.

(** *** Document Store *)

(** Modelled from the spec: a stored document of vulndb/lib/db.py (section
    4.3): the advisory, and the detail it was fanned out for; the summary
    document of an advisory has none. *)
Record Document : Type := {
  doc_vuln : Vulnerability.t;
  doc_details : option VulnerabilityDetail.t
}.

(** Modelled from the spec: the advisory id the upsert key starts with
    (section 4.3). *)
Definition advisory_id (v : Vulnerability.t) : string :=
  text (Vulnerability.id v).

(** Modelled from the spec: the package coordinate of a detail, the second
    part of the upsert key (section 4.3). *)
Definition coordinate (det : VulnerabilityDetail.t) : string :=
  text (VulnerabilityDetail.cpe_uri det) ++ "|" ++
  text (VulnerabilityDetail.package det) ++ "|" ++
  text (VulnerabilityDetail.min_affected_version det) ++ "|" ++
  text (VulnerabilityDetail.max_affected_version det).

(** Modelled from the spec: the upsert key of the summary document
    (section 4.3). *)
Definition summary_key (v : Vulnerability.t) : string := advisory_id v.

(** Modelled from the spec: the upsert key of a detail document: the
    advisory id plus the package coordinate (section 4.3). *)
Definition detail_key (v : Vulnerability.t) (det : VulnerabilityDetail.t)
    : string :=
  advisory_id v ++ "|" ++ coordinate det.

(** Modelled from the spec: the fan-out of [store] (vulndb/lib/db.py):
    one summary document per Vulnerability and one document per
    (Vulnerability, VulnerabilityDetail) pair, each under its upsert key. *)
Definition fan_out (v : Vulnerability.t) : list (string * Document) :=
  (summary_key v, {| doc_vuln := v; doc_details := None |})
  :: map (fun det => (detail_key v det,
                      {| doc_vuln := v; doc_details := Some det |}))
         (Vulnerability.details v).

(** Modelled from the spec: the validation of [store]: a record needs an
    id or a detail whose CPE identity can be derived. *)
Definition valid (v : Vulnerability.t) : bool :=
  negb (String.eqb (advisory_id v) EmptyString)
  || existsb (fun det => bool_decide (is_Some
                (parse_cpe (VulnerabilityDetail.cpe_uri det))))
             (Vulnerability.details v).

(** Modelled from the spec: the upsert of one document under its key
    (section 4.3). *)
Definition upsert (st : gmap string Document) (kd : string * Document)
    : gmap string Document :=
  <[kd.1 := kd.2]> st.

(** Modelled from the spec: the outcome of [store] (section 4.3): the
    table, the ids of the documents written, in the order written, and the
    records rejected. *)
Record Stored : Type := {
  table : gmap string Document;
  ids : list string;
  rejected : list Vulnerability.t
}.

(** Modelled from the spec: the step of [store] for one record (section
    4.3): fan out and upsert, or reject. *)
Definition store_record (acc : Stored) (v : Vulnerability.t) : Stored :=
  if valid v then
    let docs := fan_out v in
    {| table := foldl upsert (table acc) docs;
       ids := ids acc ++ map fst docs;
       rejected := rejected acc |}
  else
    {| table := table acc; ids := ids acc; rejected := rejected acc ++ [v] |}.

(** Modelled from the spec: [store(records)] of vulndb/lib/db.py (section
    4.3): every valid record is fanned out and upserted, an invalid one is
    reported and does not stop the batch. *)
Definition store (st : gmap string Document) (records : list Vulnerability.t)
    : Stored :=
  foldl store_record {| table := st; ids := []; rejected := [] |} records.

(** Modelled from the spec: [list_all()] of vulndb/lib/db.py: every
    persisted document, with its id. *)
Definition list_all (st : gmap string Document) : list (string * Document) :=
  map_to_list st.

(** *** Secondary Index *)

(** Modelled from the spec: the Secondary Index of section 4.4: document
    references grouped by package and by vendor and package. *)
Record Index : Type := {
  by_package : gmap string (list string);
  by_vendor_package : gmap (string * string) (list string)
}.

(** Modelled from the spec: the index of no documents (section 4.4). *)
Definition empty_index : Index :=
  {| by_package := ∅; by_vendor_package := ∅ |}.

(** Modelled from the spec: the candidate references under a key of the
    index, none for an unknown key (section 4.4). *)
Definition bucket `{Countable K} (m : gmap K (list string)) (k : K)
    : list string :=
  default [] (m !! k).

(** Modelled from the spec: one more reference under a key of the index
    (section 4.4). *)
Definition add_ref `{Countable K} (k : K) (ref : string)
    (m : gmap K (list string)) : gmap K (list string) :=
  <[k := ref :: bucket m k]> m.

(** Modelled from the spec: the step of [build] for one document (section
    4.4): a detail document is filed under its package and, when its
    cpe_uri decomposes, under vendor and package. *)
Definition index_document (kd : string * Document) (idx : Index) : Index :=
  match doc_details kd.2 with
  | Some det =>
      match VulnerabilityDetail.package det with
      | PStr p =>
          {| by_package := add_ref p kd.1 (by_package idx);
             by_vendor_package :=
               match cpe_vendor (VulnerabilityDetail.cpe_uri det) with
               | Some vendor => add_ref (vendor, p) kd.1 (by_vendor_package idx)
               | None => by_vendor_package idx
               end |}
      | _ => idx
      end
  | None => idx
  end.

(** Modelled from the spec: [build(documents)] of section 4.4: one pass
    over the documents, grouping their references by the package field
    and by vendor and package. *)
Definition build (documents : list (string * Document)) : Index :=
  foldr index_document empty_index documents.

(** Modelled from the spec: the documents that the references of a bucket
    name, read back from the store (section 4.4). *)
Definition deref (st : gmap string Document) (refs : list string)
    : list Document :=
  omap (fun ref => st !! ref) refs.

(** *** Query Engine *)

Section Queries.
(** Modelled from the spec: the ordering rules registered per
    package_type (section 4.2). *)
Variable registry : gmap string ordering.

(** Modelled from the spec: the rule of a package_type, the lexicographic
    one when none is registered (section 4.2). *)
Definition ordering_for (package_type : pyval) : ordering :=
  match package_type with
  | PStr t => default lexicographic (registry !! t)
  | _ => lexicographic
  end.

(** Modelled from the spec: the Version Matcher applied to the range of a
    stored detail (sections 4.4 and 4.5). *)
Definition in_range (det : VulnerabilityDetail.t) (version : string) : bool :=
  matches (ordering_for (VulnerabilityDetail.package_type det)) version
    (bound (VulnerabilityDetail.min_affected_version det))
    (bound (VulnerabilityDetail.max_affected_version det)).

(** Modelled from the spec: the PackageIssue of a matched detail (section
    3), built with the constructor of vulndb/lib/__init__.py from the
    detail's cpe_uri and the location input its fixed location keeps.  The
    constructor does not raise, so the second branch is never taken. *)
Definition package_issue_of (det : VulnerabilityDetail.t) : PackageIssue.t :=
  match PackageIssue.__init__ (VulnerabilityDetail.cpe_uri det)
          (match VulnerabilityDetail.fixed_location det with
           | Some loc => VulnerabilityLocation.cpe_uri loc
           | None => PNone
           end) with
  | Ok issue => issue
  | Raise _ => PackageIssue.Build None None
  end.

(** Modelled from the spec: the occurrence synthesized at query time
    (section 3) from the advisory and the detail that matched. *)
Definition synthesize (v : Vulnerability.t) (det : VulnerabilityDetail.t)
    : VulnerabilityOccurrence.t :=
  {| VulnerabilityOccurrence.id := Vulnerability.id v;
     VulnerabilityOccurrence.problem_type := Vulnerability.problem_type v;
     VulnerabilityOccurrence.type := VulnerabilityDetail.package_type det;
     VulnerabilityOccurrence.severity := Vulnerability.severity v;
     VulnerabilityOccurrence.cvss_score := Vulnerability.score v;
     VulnerabilityOccurrence.package_issue := package_issue_of det;
     VulnerabilityOccurrence.short_description :=
       VulnerabilityDetail.description det;
     VulnerabilityOccurrence.long_description := Vulnerability.description v;
     VulnerabilityOccurrence.related_urls := Vulnerability.related_urls v;
     VulnerabilityOccurrence.effective_severity :=
       VulnerabilityDetail.severity det |}.

(** Modelled from the spec: the occurrence of a candidate document whose
    range holds the queried version (section 4.5). *)
Definition occurrence (version : string) (d : Document)
    : option VulnerabilityOccurrence.t :=
  match doc_details d with
  | Some det =>
      if in_range det version then Some (synthesize (doc_vuln d) det)
      else None
  | None => None
  end.

(** Modelled from the spec: the detail of the document is about the
    queried package (section 4.5). *)
Definition has_package (package : string) (d : Document) : bool :=
  match doc_details d with
  | Some det => is_str (VulnerabilityDetail.package det) package
  | None => false
  end.

(** Modelled from the spec: the cpe_uri of the detail decomposes to the
    queried vendor (section 4.5). *)
Definition has_vendor (vendor : string) (d : Document) : bool :=
  match doc_details d with
  | Some det =>
      match cpe_vendor (VulnerabilityDetail.cpe_uri det) with
      | Some v => String.eqb v vendor
      | None => false
      end
  | None => false
  end.

(** Modelled from the spec: [pkg_search] of section 4.5: a scan of the
    whole store. *)
Definition pkg_search (st : gmap string Document) (package version : string)
    : list VulnerabilityOccurrence.t :=
  omap (fun kd => if has_package package kd.2 then occurrence version kd.2
                  else None)
       (list_all st).

(** Modelled from the spec: [vendor_pkg_search] of section 4.5: the same
    scan, a candidate also has to carry the vendor in its cpe_uri. *)
Definition vendor_pkg_search (st : gmap string Document)
    (vendor package version : string) : list VulnerabilityOccurrence.t :=
  omap (fun kd => if has_package package kd.2 && has_vendor vendor kd.2
                  then occurrence version kd.2
                  else None)
       (list_all st).

(** Modelled from the spec: [index_search] of section 4.5: the
    candidates come from the index bucket of the package. *)
Definition index_search (idx : Index) (st : gmap string Document)
    (name version : string) : list VulnerabilityOccurrence.t :=
  omap (occurrence version) (deref st (bucket (by_package idx) name)).

(** Modelled from the spec: the candidates of a batch, with one index
    query per distinct package (section 4.4). *)
Definition candidates_of (idx : Index) (st : gmap string Document)
    (names : list string) : gmap string (list Document) :=
  foldr (fun name cache =>
           match cache !! name with
           | Some _ => cache
           | None => <[name := deref st (bucket (by_package idx) name)]> cache
           end)
        ∅ names.

(** Modelled from the spec: [bulk_query] of section 4.4 behind
    [bulk_index_search]: the matches of every pair, each tagged with the
    composite key of its pair. *)
Definition bulk_index_search (idx : Index) (st : gmap string Document)
    (pairs : list (string * string))
    : list (string * VulnerabilityOccurrence.t) :=
  let cache := candidates_of idx st (map fst pairs) in
  flat_map (fun nv =>
              map (pair (nv.1 ++ "|" ++ nv.2))
                  (omap (occurrence nv.2) (default [] (cache !! nv.1))))
           pairs.
End Queries.
End Db.

(** ** The lodash advisory of the concrete scenario *)

Definition lodash_detail : VulnerabilityDetail.t :=
  {| VulnerabilityDetail.cpe_uri := PStr "cpe:2.3:a:lodash:lodash:4.17.15";
     VulnerabilityDetail.package := PStr "lodash";
     VulnerabilityDetail.min_affected_version := PStr "0.0.0";
     VulnerabilityDetail.max_affected_version := PStr "4.17.15";
     VulnerabilityDetail.severity := Severity.UNSPECIFIED;
     VulnerabilityDetail.description := PNone;
     VulnerabilityDetail.fixed_location := None;
     VulnerabilityDetail.package_type := PStr "lodash";
     VulnerabilityDetail.is_obsolete := PNone;
     VulnerabilityDetail.source_update_time := AsGiven PNone |}.

Definition lodash_advisory : Vulnerability.t :=
  {| Vulnerability.id := PStr "ADV-1";
     Vulnerability.problem_type := PNone;
     Vulnerability.score := PNone;
     Vulnerability.severity := Severity.UNSPECIFIED;
     Vulnerability.description := PNone;
     Vulnerability.related_urls := PNone;
     Vulnerability.details := [lodash_detail];
     Vulnerability.cvss_v3 := PNone;
     Vulnerability.source_update_time := AsGiven PNone |}.

(** A second advisory for the same package whose cpe_uri is outside the
    CPE grammar. *)
Definition bare_detail : VulnerabilityDetail.t :=
  {| VulnerabilityDetail.cpe_uri := PStr "lodash";
     VulnerabilityDetail.package := PStr "lodash";
     VulnerabilityDetail.min_affected_version := PStr "4.0.0";
     VulnerabilityDetail.max_affected_version := PStr "4.17.20";
     VulnerabilityDetail.severity := Severity.UNSPECIFIED;
     VulnerabilityDetail.description := PNone;
     VulnerabilityDetail.fixed_location := None;
     VulnerabilityDetail.package_type := PNone;
     VulnerabilityDetail.is_obsolete := PNone;
     VulnerabilityDetail.source_update_time := AsGiven PNone |}.

Definition bare_advisory : Vulnerability.t :=
  {| Vulnerability.id := PStr "ADV-2";
     Vulnerability.problem_type := PNone;
     Vulnerability.score := PNone;
     Vulnerability.severity := Severity.UNSPECIFIED;
     Vulnerability.description := PNone;
     Vulnerability.related_urls := PNone;
     Vulnerability.details := [bare_detail];
     Vulnerability.cvss_v3 := PNone;
     Vulnerability.source_update_time := AsGiven PNone |}.

Definition two_advisories : gmap string Db.Document :=
  Db.table (Db.store ∅ [lodash_advisory; bare_advisory]).

(** ** The CPE grammar as a left-to-right splitter *)

(** The longest prefix of [s] without the character [c], and what follows. *)
Fixpoint run (c : ascii) (s : string) : string :=
  match s with
  | EmptyString => EmptyString
  | String a r => if Ascii.eqb a c then EmptyString else String a (run c r)
  end.

Fixpoint skip (c : ascii) (s : string) : string :=
  match s with
  | EmptyString => EmptyString
  | String a r => if Ascii.eqb a c then s else skip c r
  end.

(** [c] does not occur in [s]. *)
Fixpoint free_of (c : ascii) (s : string) : bool :=
  match s with
  | EmptyString => true
  | String a r => negb (Ascii.eqb a c) && free_of c r
  end.

(** The occurrences of [c] in [s]. *)
Fixpoint count_char (c : ascii) (s : string) : nat :=
  match s with
  | EmptyString => 0
  | String a r => (if Ascii.eqb a c then 1 else 0) + count_char c r
  end.

(** A field of a CPE: one character or more, none of them a colon. *)
Definition is_field (s : string) : bool :=
  negb (String.eqb s EmptyString) && free_of ":" s.

(** What may follow the last field: the end of the text, or a colon. *)
Definition at_boundary (s : string) : bool :=
  match s with
  | EmptyString => true
  | String a _ => Ascii.eqb a ":"
  end.

(** A non-empty run of characters other than the colon, and the rest. *)
Definition field_of (s : string) : option (string * string) :=
  match s with
  | EmptyString => None
  | String a _ => if Ascii.eqb a ":" then None else Some (run ":" s, skip ":" s)
  end.

(** The pattern after [cpe] and the optional colon. *)
Definition cpe_tail (s : string) : option Match :=
  s ← strip_prefix ":" s;
  '(_, s) ← field_of s;
  s ← strip_prefix ":" s;
  '(_, s) ← field_of s;
  s ← strip_prefix ":" s;
  '(vendor, s) ← field_of s;
  s ← strip_prefix ":" s;
  '(package, s) ← field_of s;
  s ← strip_prefix ":" s;
  '(version, _) ← field_of s;
  Some [("vendor", vendor); ("package", package); ("version", version)].

Definition cpe_split (s : string) : option Match :=
  t ← strip_prefix "cpe" s;
  match strip_prefix ":" t ≫= cpe_tail with
  | Some m => Some m
  | None => cpe_tail t
  end.

(** The detail that the constructor derives from the cpe_uri alone, with a
    fixed location supplied. *)
Definition derived_location : VulnerabilityLocation.t :=
  {| VulnerabilityLocation.cpe_uri := PStr "4.17.16";
     VulnerabilityLocation.package := PStr "lodash";
     VulnerabilityLocation.version := PStr "4.17.15" |}.

Definition derived_detail : VulnerabilityDetail.t :=
  {| VulnerabilityDetail.cpe_uri := PStr "cpe:2.3:a:lodash:lodash:4.17.15";
     VulnerabilityDetail.package := PStr "lodash";
     VulnerabilityDetail.min_affected_version := PStr "4.17.15";
     VulnerabilityDetail.max_affected_version := PStr "4.17.15";
     VulnerabilityDetail.severity := Severity.UNSPECIFIED;
     VulnerabilityDetail.description := PNone;
     VulnerabilityDetail.fixed_location := Some derived_location;
     VulnerabilityDetail.package_type := PStr "lodash";
     VulnerabilityDetail.is_obsolete := PNone;
     VulnerabilityDetail.source_update_time := AsGiven PNone |}.

(** * Properties *)

(** ** The regular expression matcher *)

Lemma star_not_some {A} c s (k : string -> option A) x :
  star_not c s k = Some x -> exists t, k t = Some x.
Proof.
  induction s as [|a r IH]; simpl.
  - eauto.
  - destruct (Ascii.eqb a c); [eauto|].
    destruct (star_not c r k) as [y|] eqn:E; [|eauto].
    intros [= ->]. auto.
Qed.

Lemma plus_not_some {A} c s (k : string -> option A) x :
  plus_not c s k = Some x -> exists t, k t = Some x.
Proof.
  destruct s as [|a r]; simpl; [discriminate|].
  destruct (Ascii.eqb a c); [discriminate|]. apply star_not_some.
Qed.

(** A successful match ran its continuation once more groups than those
    of the pattern had been recorded, one per name. *)
Lemma rmatch_groups {A} r :
  definite r = true ->
  forall s g (k : string -> Match -> option A) x,
    rmatch r s g k = Some x ->
    exists t caps, k t (caps ++ g)%list = Some x /\ caps.*1 = rev (names r).
Proof.
  induction r as [p|c|r1 IH|r1 IH1 r2 IH2|n r1 IH]; simpl; intros Hd s g k x Hm.
  - destruct (strip_prefix p s) as [t|]; [|discriminate].
    exists t, []. auto.
  - apply plus_not_some in Hm as [t Ht]. exists t, []. auto.
  - apply andb_prop in Hd as [Hd Hn]. apply bool_decide_eq_true in Hn.
    rewrite Hn. destruct (rmatch r1 s g k) as [y|] eqn:E.
    + injection Hm as ->. apply IH in E; [|done]. by rewrite Hn in E.
    + exists s, []. auto.
  - apply andb_prop in Hd as [Hd1 Hd2].
    apply IH1 in Hm as (t1 & caps1 & Hm & Hn1); [|done].
    apply IH2 in Hm as (t2 & caps2 & Hm & Hn2); [|done].
    exists t2, (caps2 ++ caps1)%list. split.
    + by rewrite <- app_assoc.
    + by rewrite fmap_app, rev_app_distr, Hn1, Hn2.
  - apply andb_prop in Hd as [Hd Hn]. apply bool_decide_eq_true in Hn.
    apply IH in Hm as (t & caps & Hm & Hc); [|done].
    rewrite Hn in Hc. simpl in Hc. apply fmap_nil_inv in Hc as ->.
    exists t, [(n, taken s t)]. split; [done|]. by rewrite Hn.
Qed.

Lemma re_match_names r s m :
  definite r = true -> re_match r s = Some m -> m.*1 = names r.
Proof.
  intros Hd Hm. unfold re_match in Hm.
  apply rmatch_groups in Hm as (t & caps & [= <-] & Hc); [|done].
  rewrite app_nil_r.
  change (map fst (rev caps) = names r).
  change (map fst caps = rev (names r)) in Hc.
  by rewrite map_rev, Hc, rev_involutive.
Qed.

(** The groups of a CPE match: a vendor, a package and a version. *)
Lemma cpe_match_groups s m :
  re_match CPE_REGEX s = Some m ->
  exists vendor package version,
    m = [("vendor", vendor); ("package", package); ("version", version)].
Proof.
  intros Hm. apply re_match_names in Hm; [|done].
  destruct m as [|[n1 x1] [|[n2 x2] [|[n3 x3] [|? ?]]]]; try discriminate.
  injection Hm as -> -> ->. eauto.
Qed.

Example cpe_match_lodash :
  re_match CPE_REGEX "cpe:2.3:a:lodash:lodash:4.17.15:*:*:*"
  = Some [("vendor", "lodash"); ("package", "lodash"); ("version", "4.17.15")].
Proof. reflexivity. Qed.

Example cpe_match_short : re_match CPE_REGEX "cpe:/a:lodash:lodash" = None.
Proof. reflexivity. Qed.

Example cpe_match_not_at_start :
  re_match CPE_REGEX "x cpe:2.3:a:lodash:lodash:4.17.15" = None.
Proof. reflexivity. Qed.

(** ** Severity *)

Lemma upper_nonempty s m : upper s = Severity.name m -> s <> EmptyString.
Proof. intros H ->. destruct m; vm_compute in H; discriminate. Qed.

Lemma lookup_member_name m :
  Severity.lookup_member Severity.__members__ (PStr (Severity.name m)) = m.
Proof. by destruct m. Qed.

Lemma lookup_member_other u :
  (forall m, u <> Severity.name m) ->
  Severity.lookup_member Severity.__members__ (PStr u) = Severity.UNSPECIFIED.
Proof.
  intros H. unfold Severity.__members__.
  cbn [Severity.lookup_member str_eq].
  repeat match goal with
  | |- context [String.eqb ?k u] => destruct (String.eqb_spec k u) as [E|_]
  end; try reflexivity.
  - destruct (H Severity.LOW). by rewrite <- E.
  - destruct (H Severity.MEDIUM). by rewrite <- E.
  - destruct (H Severity.HIGH). by rewrite <- E.
  - destruct (H Severity.CRITICAL). by rewrite <- E.
Qed.

Lemma from_str_of_string s :
  s <> EmptyString ->
  Severity.from_str (PStr s)
  = Ok (Severity.lookup_member Severity.__members__ (PStr (upper s))).
Proof.
  intros Hs. unfold Severity.from_str. cbn [bind truthy].
  destruct (String.eqb_spec s EmptyString); [done|]. reflexivity.
Qed.

Lemma from_str_falsy v :
  (forall d, v <> PDict d) -> truthy v = false ->
  Severity.from_str v = Ok Severity.UNSPECIFIED.
Proof.
  intros Hd Hv. unfold Severity.from_str.
  destruct v as [|b|z|s|mu b|l|d]; [..|by destruct (Hd d)].
  all: unfold bind; by rewrite Hv.
Qed.

Lemma from_str_bytes mutable b :
  Severity.from_str (PBytes mutable b) = Ok Severity.UNSPECIFIED.
Proof.
  unfold Severity.from_str. cbn [bind truthy py_upper].
  by destruct (negb (String.eqb b EmptyString)).
Qed.

(** A truthy value without an [upper] method. *)
Lemma from_str_no_upper v :
  truthy v = true ->
  (forall s, v <> PStr s) -> (forall mutable b, v <> PBytes mutable b) ->
  (forall d, v <> PDict d) ->
  Severity.from_str v = Raise AttributeError.
Proof.
  intros Hv Hs Hb Hd. unfold Severity.from_str.
  destruct v as [|b|z|s|mu b|l|d].
  all: try (by destruct (Hs s)); try (by destruct (Hb mu b));
    try (by destruct (Hd d)).
  all: cbn [bind]; by rewrite Hv.
Qed.

(** The parse of a string: the member of that name, if there is one. *)
Lemma severity_shape :
  (forall s m, upper s = Severity.name m -> Severity.from_str (PStr s) = Ok m)
  /\ (forall s, (forall m, upper s <> Severity.name m) ->
        Severity.from_str (PStr s) = Ok Severity.UNSPECIFIED).
Proof.
  split.
  - intros s m H. rewrite from_str_of_string by eauto using upper_nonempty.
    by rewrite H, lookup_member_name.
  - intros s H. destruct (String.eqb_spec s EmptyString) as [->|Hs]; [done|].
    rewrite from_str_of_string by done. by rewrite lookup_member_other.
Qed.

(** Upper-casing is the one of Unicode: the dotless i (U+0131, the bytes
    196 177 in UTF-8) becomes I, so this spelling of "high" is HIGH too. *)
Example severity_from_str_dotless_i :
  Severity.from_str
    (PStr (String "h" (String "196" (String "177" (String "g"
       (String "h" EmptyString))))))
  = Ok Severity.HIGH.
Proof. vm_compute. reflexivity. Qed.

(** Bytes are upper-cased but equal no member name, which is a string. *)
Example severity_from_str_bytes_high :
  Severity.from_str (PBytes false "high") = Ok Severity.UNSPECIFIED
  /\ py_upper (PBytes false "high") = Ok (PBytes false "HIGH").
Proof. split; reflexivity. Qed.

(** C5, as the claim states it, fails: an input that is not recognized
    need not give UNSPECIFIED; a number raises AttributeError. *)
Lemma severity_from_str_number_raises :
  Severity.from_str (PInt 7) = Raise AttributeError
  /\ Severity.from_str (PInt 7) <> Ok Severity.UNSPECIFIED.
Proof. split; [reflexivity | discriminate]. Qed.

(** C5 (amended): parsing a severity ignores the case of the letters and
    defaults on strings, bytes and absent values: a string whose
    upper-casing is the name of a member gives that member, every other
    string, every bytes value and every falsy value that is no dictionary
    (None among them) gives UNSPECIFIED; a truthy value that is neither a
    string nor bytes nor a dictionary raises AttributeError; and a member
    prints as its name. *)
Theorem severity_from_str_lenient :
  (forall s m, upper s = Severity.name m -> Severity.from_str (PStr s) = Ok m)
  /\ (forall s, (forall m, upper s <> Severity.name m) ->
        Severity.from_str (PStr s) = Ok Severity.UNSPECIFIED)
  /\ (forall v, (forall d, v <> PDict d) -> truthy v = false ->
        Severity.from_str v = Ok Severity.UNSPECIFIED)
  /\ (forall mutable b,
        Severity.from_str (PBytes mutable b) = Ok Severity.UNSPECIFIED)
  /\ (forall v,
        truthy v = true ->
        (forall s, v <> PStr s) -> (forall mutable b, v <> PBytes mutable b) ->
        (forall d, v <> PDict d) ->
        Severity.from_str v = Raise AttributeError)
  /\ Severity.from_str (PStr "high") = Ok Severity.HIGH
  /\ Severity.from_str (PStr "High") = Ok Severity.HIGH
  /\ Severity.from_str PNone = Ok Severity.UNSPECIFIED
  /\ Severity.from_str (PInt 0) = Ok Severity.UNSPECIFIED
  /\ Severity.from_str (PBool true) = Raise AttributeError
  /\ (forall m, Severity.__str__ m = Severity.name m).
Proof.
  split; [|split; [|split; [|split; [|split]]]].
  - intros s m H. rewrite from_str_of_string by eauto using upper_nonempty.
    by rewrite H, lookup_member_name.
  - intros s H. destruct (String.eqb_spec s EmptyString) as [->|Hs]; [done|].
    rewrite from_str_of_string by done. by rewrite lookup_member_other.
  - apply from_str_falsy.
  - apply from_str_bytes.
  - apply from_str_no_upper.
  - repeat split; vm_compute; reflexivity.
Qed.

Lemma severity_from_str_lenient_witness :
  Severity.from_str (PStr "cRiTiCaL") = Ok Severity.CRITICAL
  /\ Severity.from_str (PStr "urgent") = Ok Severity.UNSPECIFIED
  /\ Severity.from_str (PStr EmptyString) = Ok Severity.UNSPECIFIED
  /\ Severity.from_str (PList [PStr "high"]) = Raise AttributeError.
Proof.
  destruct severity_from_str_lenient as (H1 & H2 & H3 & _ & H5 & _).
  split; [|split; [|split]].
  - apply H1. vm_compute. reflexivity.
  - apply H2. intros m. destruct m; vm_compute; discriminate.
  - apply H3; [discriminate | reflexivity].
  - apply H5; [reflexivity | discriminate..].
Defined.

Lemma dict_getitem_missing d key :
  key ∉ d.*1 -> dict_getitem d key = Raise KeyError.
Proof.
  induction d as [|[k v] d IH]; simpl; [done|].
  intros Hk. apply not_elem_of_cons in Hk as [Hne Hk].
  destruct (String.eqb_spec k key); [congruence|auto].
Qed.

(** The live binding of a key: the first one. *)
Lemma dict_getitem_binding d1 d2 key v :
  key ∉ d1.*1 -> dict_getitem (d1 ++ (key, v) :: d2)%list key = Ok v.
Proof.
  induction d1 as [|[k w] d1 IH]; simpl.
  - by rewrite String.eqb_refl.
  - intros Hk. apply not_elem_of_cons in Hk as [Hne Hk].
    destruct (String.eqb_spec k key); [congruence|auto].
Qed.

(** C10: a dictionary is parsed through the value under its key "value":
    when that value is a string, the result is the member whose name is
    the upper-casing of the string and UNSPECIFIED when there is none, as
    for the string itself; a dictionary without the key raises KeyError. *)
Theorem severity_from_str_dict :
  (forall d1 d2 s m,
     "value" ∉ d1.*1 -> upper s = Severity.name m ->
     Severity.from_str (PDict (d1 ++ ("value", PStr s) :: d2)%list) = Ok m)
  /\ (forall d1 d2 s,
        "value" ∉ d1.*1 -> (forall m, upper s <> Severity.name m) ->
        Severity.from_str (PDict (d1 ++ ("value", PStr s) :: d2)%list)
        = Ok Severity.UNSPECIFIED)
  /\ (forall d1 d2 s,
        "value" ∉ d1.*1 ->
        Severity.from_str (PDict (d1 ++ ("value", PStr s) :: d2)%list)
        = Severity.from_str (PStr s))
  /\ (forall d, "value" ∉ d.*1 -> Severity.from_str (PDict d) = Raise KeyError).
Proof.
  assert (Hsame : forall d1 d2 s,
    "value" ∉ d1.*1 ->
    Severity.from_str (PDict (d1 ++ ("value", PStr s) :: d2)%list)
    = Severity.from_str (PStr s)).
  { intros d1 d2 s Hd. unfold Severity.from_str.
    by rewrite dict_getitem_binding. }
  destruct severity_shape as [Hname Hother].
  split; [|split; [|split]].
  - intros d1 d2 s m Hd Hs. rewrite Hsame by done. by apply Hname.
  - intros d1 d2 s Hd Hs. rewrite Hsame by done. by apply Hother.
  - exact Hsame.
  - intros d Hd. unfold Severity.from_str. by rewrite dict_getitem_missing.
Qed.

Lemma severity_from_str_dict_witness :
  Severity.from_str (PDict [("score", PInt 7); ("value", PStr "Medium")])
  = Ok Severity.MEDIUM
  /\ Severity.from_str (PDict [("value", PStr "n/a"); ("value", PStr "low")])
     = Ok Severity.UNSPECIFIED
  /\ Severity.from_str (PDict [("score", PInt 7)]) = Raise KeyError.
Proof.
  destruct severity_from_str_dict as (H1 & H2 & _ & H4).
  assert (Hscore : "value" ∉ [("score", PInt 7)].*1).
  { intros H. apply list_elem_of_In in H. simpl in H.
    destruct H as [H|[]]. discriminate. }
  split; [|split].
  - apply (H1 [("score", PInt 7)] [] "Medium" Severity.MEDIUM); [done|].
    vm_compute. reflexivity.
  - apply (H2 [] [("value", PStr "low")] "n/a").
    + apply not_elem_of_nil.
    + intros m. destruct m; vm_compute; discriminate.
  - by apply H4.
Defined.

(** ** Locations and package issues *)

Lemma location_without_input cpe_uri fixed_location :
  truthy fixed_location = false ->
  VulnerabilityLocation.from_dict cpe_uri fixed_location = Ok None.
Proof. intros H. unfold VulnerabilityLocation.from_dict. by rewrite H. Qed.

(** C9: a PackageIssue never carries a location: both locations are built
    with [None] as the location input, which the falsy test of
    [VulnerabilityLocation.from_dict] answers with [None] whatever was
    supplied; this holds for the constructor and for [from_dict]. *)
Theorem package_issue_locations_none :
  (forall affected_location fixed_location,
     PackageIssue.__init__ affected_location fixed_location
     = Ok {| PackageIssue.affected_location := None;
             PackageIssue.fixed_location := None |})
  /\ (forall d,
        PackageIssue.from_dict (PDict d)
        = Ok {| PackageIssue.affected_location := None;
                PackageIssue.fixed_location := None |})
  /\ (forall package_issue issue,
        PackageIssue.from_dict package_issue = Ok issue ->
        PackageIssue.affected_location issue = None
        /\ PackageIssue.fixed_location issue = None).
Proof.
  assert (Hinit : forall a f,
    PackageIssue.__init__ a f = Ok (PackageIssue.Build None None)).
  { intros a f. unfold PackageIssue.__init__.
    by rewrite !location_without_input. }
  split; [done|]. split.
  - intros d. unfold PackageIssue.from_dict. simpl. apply Hinit.
  - intros p issue. unfold PackageIssue.from_dict.
    destruct p; try discriminate. simpl. rewrite Hinit.
    by intros [= <-].
Qed.

Lemma package_issue_locations_none_witness :
  PackageIssue.affected_location
    {| PackageIssue.affected_location := None;
       PackageIssue.fixed_location := None |} = None
  /\ PackageIssue.fixed_location
       {| PackageIssue.affected_location := None;
          PackageIssue.fixed_location := None |} = None.
Proof.
  apply (proj2 (proj2 package_issue_locations_none)
           (PDict [("affected_location", PStr "cpe:2.3:a:lodash:lodash:4.17.15");
                   ("fixed_location", PStr "cpe:2.3:a:lodash:lodash:4.17.16")])).
  reflexivity.
Defined.

(** C8, as the claim states it, fails: with a location supplied, an absent
    URI is not answered with [None] but with a TypeError of the matcher. *)
Lemma location_absent_uri_raises :
  VulnerabilityLocation.from_dict PNone (PStr "cpe:2.3:a:lodash:lodash:4.17.16")
  = Raise TypeError
  /\ VulnerabilityLocation.from_dict PNone
       (PStr "cpe:2.3:a:lodash:lodash:4.17.16") <> Ok None.
Proof. split; [reflexivity | discriminate]. Qed.

(** C8 (amended): an absent location input gives no value whatever the URI
    is, the absent one included; a URI string outside the CPE grammar gives
    no value; an absent URI next to a supplied location raises TypeError. *)
Theorem location_from_dict_no_value :
  (forall cpe_uri fixed_location,
     truthy fixed_location = false ->
     VulnerabilityLocation.from_dict cpe_uri fixed_location = Ok None)
  /\ (forall s fixed_location,
        re_match CPE_REGEX s = None ->
        VulnerabilityLocation.from_dict (PStr s) fixed_location = Ok None)
  /\ (forall fixed_location,
        truthy fixed_location = true ->
        VulnerabilityLocation.from_dict PNone fixed_location = Raise TypeError).
Proof.
  split; [apply location_without_input|]. split.
  - intros s loc Hs. unfold VulnerabilityLocation.from_dict. simpl.
    rewrite Hs. by destruct (truthy loc).
  - intros loc Hloc. unfold VulnerabilityLocation.from_dict.
    by rewrite Hloc.
Qed.

Lemma location_from_dict_no_value_witness :
  VulnerabilityLocation.from_dict PNone PNone = Ok None
  /\ VulnerabilityLocation.from_dict (PStr "lodash") (PStr "lodash@4.17.16")
     = Ok None
  /\ VulnerabilityLocation.from_dict PNone (PStr "lodash@4.17.16")
     = Raise TypeError.
Proof.
  destruct location_from_dict_no_value as (H1 & H2 & H3).
  split; [|split].
  - apply H1. reflexivity.
  - apply H2. reflexivity.
  - apply H3. reflexivity.
Defined.

(** ** Vulnerability details *)

(** C6, as the claim states it, fails: a supplied package_type outside the
    known set is dropped and the vendor of the cpe_uri is returned. *)
Lemma get_type_unknown_not_kept :
  VulnerabilityDetail.get_type (PStr "cpe:2.3:a:acme:widget:1.0") (PStr "cargo")
  = Ok (PStr "acme")
  /\ VulnerabilityDetail.get_type (PStr "cpe:2.3:a:acme:widget:1.0")
       (PStr "cargo") <> Ok (PStr "cargo").
Proof. split; [reflexivity | discriminate]. Qed.

(** C6 (amended): a supplied package_type of the known set is kept; any
    other supplied value is ignored and the result is the vendor decomposed
    from cpe_uri, passed through whether it is a known type or not, or
    [None] when cpe_uri does not match the CPE grammar. *)
Theorem get_type_known_or_vendor :
  (forall cpe_uri package_type,
     py_in package_type KNOWN_PKG_TYPES = true ->
     VulnerabilityDetail.get_type cpe_uri package_type = Ok package_type)
  /\ (forall s package_type m,
        py_in package_type KNOWN_PKG_TYPES = false ->
        re_match CPE_REGEX s = Some m ->
        VulnerabilityDetail.get_type (PStr s) package_type
        = Ok (group m "vendor")
        /\ exists vendor, group m "vendor" = PStr vendor)
  /\ (forall s package_type,
        py_in package_type KNOWN_PKG_TYPES = false ->
        re_match CPE_REGEX s = None ->
        VulnerabilityDetail.get_type (PStr s) package_type = Ok PNone).
Proof.
  split; [|split].
  - intros c pt H. unfold VulnerabilityDetail.get_type. by rewrite H.
  - intros s pt m H Hm. unfold VulnerabilityDetail.get_type.
    rewrite H. simpl. rewrite Hm. split.
    + by case (py_in (group m "vendor") KNOWN_PKG_TYPES).
    + apply cpe_match_groups in Hm as (v & p & ver & ->). by exists v.
  - intros s pt H Hm. unfold VulnerabilityDetail.get_type.
    rewrite H. simpl. by rewrite Hm.
Qed.

Lemma get_type_known_or_vendor_witness :
  VulnerabilityDetail.get_type (PStr "cpe:2.3:a:acme:widget:1.0") (PStr "npm")
  = Ok (PStr "npm")
  /\ VulnerabilityDetail.get_type (PStr "cpe:2.3:a:acme:widget:1.0") (PStr "cargo")
     = Ok (PStr "acme")
  /\ VulnerabilityDetail.get_type (PStr "acme/widget") (PStr "cargo") = Ok PNone.
Proof.
  destruct get_type_known_or_vendor as (H1 & H2 & H3).
  split; [|split].
  - apply H1. reflexivity.
  - apply (H2 "cpe:2.3:a:acme:widget:1.0" (PStr "cargo")
             [("vendor", "acme"); ("package", "widget"); ("version", "1.0")]);
      reflexivity.
  - apply H3; reflexivity.
Defined.

Lemma or_group_supplied x parts name :
  truthy x = true -> VulnerabilityDetail.or_group x parts name = Ok x.
Proof. intros H. unfold VulnerabilityDetail.or_group. by rewrite H. Qed.

Lemma or_group_derived x m name :
  truthy x = false ->
  VulnerabilityDetail.or_group x (Some m) name = Ok (group m name).
Proof. intros H. unfold VulnerabilityDetail.or_group. by rewrite H. Qed.

Lemma or_group_unmatched x name :
  truthy x = false ->
  VulnerabilityDetail.or_group x None name = Raise AttributeError.
Proof. intros H. unfold VulnerabilityDetail.or_group. by rewrite H. Qed.

(** C4: what the constructor does with a missing package or version bound.
    When cpe_uri matches the CPE grammar (and the severity parses) the
    detail is constructed and a missing field is the matching group of the
    decomposition; when cpe_uri does not match, the constructor dereferences
    the absent match and raises AttributeError: the field is not left unset
    and no detail is constructed. *)
Theorem detail_init_missing_field :
  forall strptime s package vmin vmax severity description fixed_location
         package_type is_obsolete source_update_time,
    let init := VulnerabilityDetail.__init__ strptime (PStr s) package vmin
                  vmax severity description fixed_location package_type
                  is_obsolete source_update_time in
    (forall m sev,
       re_match CPE_REGEX s = Some m ->
       Severity.from_str severity = Ok sev ->
       init = Ok
         {| VulnerabilityDetail.cpe_uri := PStr s;
            VulnerabilityDetail.package :=
              if truthy package then package else group m "package";
            VulnerabilityDetail.min_affected_version :=
              if truthy vmin then vmin else group m "version";
            VulnerabilityDetail.max_affected_version :=
              if truthy vmax then vmax else group m "version";
            VulnerabilityDetail.severity := sev;
            VulnerabilityDetail.description := description;
            VulnerabilityDetail.fixed_location :=
              if truthy fixed_location
              then Some (VulnerabilityLocation.Build fixed_location
                           (group_nth m 2) (group_nth m 3))
              else None;
            VulnerabilityDetail.package_type :=
              if py_in package_type KNOWN_PKG_TYPES then package_type
              else group m "vendor";
            VulnerabilityDetail.is_obsolete := is_obsolete;
            VulnerabilityDetail.source_update_time :=
              convert_time strptime source_update_time |})
    /\ (re_match CPE_REGEX s = None ->
        truthy package = false \/ truthy vmin = false \/ truthy vmax = false ->
        init = Raise AttributeError).
Proof.
  intros strptime s package vmin vmax severity description fixed_location
    package_type is_obsolete source_update_time init.
  subst init. unfold VulnerabilityDetail.__init__. simpl. split.
  - intros m sev Hm Hsev. rewrite Hm, Hsev. unfold bind at 1.
    unfold VulnerabilityDetail.or_group, parts_group,
      VulnerabilityLocation.from_dict, VulnerabilityDetail.get_type.
    simpl. rewrite Hm.
    destruct (truthy package), (truthy vmin), (truthy vmax),
      (truthy fixed_location), (py_in package_type KNOWN_PKG_TYPES); simpl;
      try reflexivity;
      by case (py_in (group m "vendor") KNOWN_PKG_TYPES).
  - intros Hm H. rewrite Hm. unfold bind at 1.
    destruct (truthy package) eqn:Hp.
    + rewrite or_group_supplied by done. unfold bind at 1.
      destruct (truthy vmin) eqn:Hlo.
      * rewrite or_group_supplied by done. unfold bind at 1.
        destruct (truthy vmax) eqn:Hhi.
        -- destruct H as [H|[H|H]]; discriminate.
        -- by rewrite or_group_unmatched.
      * by rewrite or_group_unmatched.
    + by rewrite or_group_unmatched.
Qed.

Lemma detail_init_missing_field_witness :
  VulnerabilityDetail.__init__ (fun _ => None) (PStr "lodash") PNone
    (PStr "0.0.0") (PStr "4.17.15") (PStr "high") (PStr "Prototype pollution")
    PNone (PStr "npm") (PBool false) PNone
  = Raise AttributeError
  /\ VulnerabilityDetail.package <$>
       VulnerabilityDetail.__init__ (fun _ => None)
         (PStr "cpe:2.3:a:lodash:lodash:4.17.15") PNone (PStr "0.0.0") PNone
         (PStr "high") (PStr "Prototype pollution") PNone (PStr "npm")
         (PBool false) PNone
     = Ok (PStr "lodash").
Proof.
  split.
  - apply (proj2 (detail_init_missing_field (fun _ => None) "lodash" PNone
                    (PStr "0.0.0") (PStr "4.17.15") (PStr "high")
                    (PStr "Prototype pollution") PNone (PStr "npm")
                    (PBool false) PNone)).
    + reflexivity.
    + left. reflexivity.
  - rewrite (proj1 (detail_init_missing_field (fun _ => None)
                      "cpe:2.3:a:lodash:lodash:4.17.15" PNone (PStr "0.0.0")
                      PNone (PStr "high") (PStr "Prototype pollution") PNone
                      (PStr "npm") (PBool false) PNone)
               [("vendor", "lodash"); ("package", "lodash");
                ("version", "4.17.15")] Severity.HIGH eq_refl eq_refl).
    reflexivity.
Defined.

(** ** The Version Matcher *)

Lemma lexicographic_refl s : Db.lexicographic s s = Eq.
Proof.
  unfold Db.lexicographic. pose proof (String.compare_antisym s s) as H.
  by destruct (String.compare s s).
Qed.

Lemma le_under_not_gt (cmp : Db.ordering) a b :
  Db.le_under cmp a b = true <-> cmp a b <> Gt.
Proof. unfold Db.le_under. destruct (cmp a b); split; congruence. Qed.

Lemma le_under_both cmp a b :
  (forall x y, cmp x y = CompOpp (cmp y x)) ->
  Db.le_under cmp a b && Db.le_under cmp b a = true <-> cmp a b = Eq.
Proof.
  intros Hanti. unfold Db.le_under. rewrite (Hanti b a).
  destruct (cmp a b); simpl; split; congruence.
Qed.

(** ** The Document Store *)

Lemma fan_out_keys v :
  (Db.fan_out v).*1
  = Db.summary_key v :: map (Db.detail_key v) (Vulnerability.details v).
Proof.
  unfold Db.fan_out. simpl. f_equal.
  induction (Vulnerability.details v) as [|d l IH]; simpl; [done|].
  by f_equal.
Qed.

Lemma valid_of_id v : Db.advisory_id v <> EmptyString -> Db.valid v = true.
Proof.
  intros H. unfold Db.valid.
  by destruct (String.eqb_spec (Db.advisory_id v) EmptyString).
Qed.

Lemma store_record_ids records :
  Forall (fun v => Db.advisory_id v <> EmptyString) records ->
  forall acc,
    Db.ids (foldl Db.store_record acc records)
    = (Db.ids acc ++ flat_map (fun v => (Db.fan_out v).*1) records)%list.
Proof.
  induction 1 as [|v records Hv _ IH]; intros acc; simpl.
  - by rewrite app_nil_r.
  - rewrite IH. unfold Db.store_record.
    rewrite (valid_of_id v Hv). simpl. by rewrite <- app_assoc.
Qed.

Lemma store_ids st records :
  Forall (fun v => Db.advisory_id v <> EmptyString) records ->
  Db.ids (Db.store st records) = flat_map (fun v => (Db.fan_out v).*1) records.
Proof. intros H. unfold Db.store. by rewrite store_record_ids. Qed.

(** The number of documents a batch fans out into. *)
Lemma fan_out_count records :
  length (flat_map (fun v => (Db.fan_out v).*1) records)
  = sum_list (map (fun v => S (length (Vulnerability.details v))) records).
Proof.
  induction records as [|v records IH]; [done|].
  cbn [flat_map map]. rewrite length_app, IH, fan_out_keys.
  simpl. by rewrite length_map.
Qed.

Lemma string_length_app (a b : string) :
  String.length (a ++ b) = String.length a + String.length b.
Proof. induction a as [|c a IH]; simpl; [done|]. by rewrite IH. Qed.

Lemma detail_key_longer v det :
  String.length (Db.advisory_id v) < String.length (Db.detail_key v det).
Proof.
  unfold Db.detail_key. rewrite !string_length_app. simpl. lia.
Qed.

(** A record of the batch whose id is as long as any. *)
Lemma longest_id (records : list Vulnerability.t) :
  records <> [] ->
  exists v, v ∈ records
    /\ forall w, w ∈ records ->
         String.length (Db.advisory_id w) <= String.length (Db.advisory_id v).
Proof.
  induction records as [|v records IH]; [done|]. intros _.
  destruct records as [|v' records].
  - exists v. split; [by left|]. by intros w ->%list_elem_of_singleton.
  - destruct IH as (u & Hu & Hmax); [done|].
    destruct (le_lt_dec (String.length (Db.advisory_id v))
                (String.length (Db.advisory_id u))) as [Hle|Hlt].
    + exists u. split; [by right|].
      intros w [->|Hw]%elem_of_cons; [done|auto].
    + exists v. split; [by left|].
      intros w [->|Hw]%elem_of_cons; [done|].
      specialize (Hmax w Hw). lia.
Qed.

Lemma fan_out_count_lower records :
  Forall (fun v => Vulnerability.details v <> []) records ->
  2 * length records
  <= sum_list (map (fun v => S (length (Vulnerability.details v))) records).
Proof.
  induction 1 as [|v records Hv _ IH]; simpl; [done|].
  destruct (Vulnerability.details v); [done|]. simpl. lia.
Qed.

Lemma summary_key_written records v :
  v ∈ records ->
  Db.advisory_id v ∈ flat_map (fun v => (Db.fan_out v).*1) records.
Proof.
  intros Hv. apply list_elem_of_In, in_flat_map.
  exists v. split; [by apply list_elem_of_In|].
  rewrite fan_out_keys. by left.
Qed.

Lemma detail_key_written records v det :
  v ∈ records -> det ∈ Vulnerability.details v ->
  Db.detail_key v det ∈ flat_map (fun v => (Db.fan_out v).*1) records.
Proof.
  intros Hv Hd. apply list_elem_of_In, in_flat_map.
  exists v. split; [by apply list_elem_of_In|].
  rewrite fan_out_keys. right. apply in_map. by apply list_elem_of_In.
Qed.

(** With distinct ids, the documents written carry more different keys
    than there are records: the ids themselves, and the key of a detail of
    the record with the longest id. *)
Lemma distinct_keys_written records :
  records <> [] ->
  NoDup (Db.advisory_id <$> records) ->
  Forall (fun v => Vulnerability.details v <> []) records ->
  length records
  < size (list_to_set (flat_map (fun v => (Db.fan_out v).*1) records)
            : gset string).
Proof.
  intros Hne Hnd Hdet.
  destruct (longest_id records Hne) as (v & Hv & Hmax).
  destruct (Vulnerability.details v) as [|det dets] eqn:Hd.
  { by destruct (proj1 (Forall_forall _ _) Hdet v Hv). }
  set (k := Db.detail_key v det).
  assert (Hk : k ∉ Db.advisory_id <$> records).
  { intros (w & Hkw & Hw)%list_elem_of_fmap.
    pose proof (detail_key_longer v det) as Hlt. fold k in Hlt.
    rewrite Hkw in Hlt. specialize (Hmax w Hw). lia. }
  apply Nat.lt_le_trans with
    (size (list_to_set (Db.advisory_id <$> records) ∪ {[k]} : gset string)).
  - rewrite size_union by (by apply disjoint_singleton_r;
                            rewrite elem_of_list_to_set).
    rewrite size_list_to_set, size_singleton, length_fmap by done. lia.
  - apply subseteq_size. intros x [Hx| ->%elem_of_singleton]%elem_of_union;
      apply elem_of_list_to_set.
    + apply elem_of_list_to_set, list_elem_of_fmap in Hx as (w & -> & Hw).
      by apply summary_key_written.
    + apply detail_key_written; [done|]. rewrite Hd. by left.
Qed.

Lemma upsert_fold_lookup docs st k :
  is_Some (foldl Db.upsert st docs !! k) <-> is_Some (st !! k) \/ k ∈ docs.*1.
Proof.
  revert st. induction docs as [|kd docs IH]; intros st; simpl.
  - rewrite elem_of_nil. tauto.
  - rewrite IH. unfold Db.upsert at 1. rewrite lookup_insert_is_Some'.
    rewrite elem_of_cons. intuition congruence.
Qed.

Lemma store_record_written records :
  forall acc,
    (forall k, k ∈ Db.ids acc -> is_Some (Db.table acc !! k)) ->
    forall k, k ∈ Db.ids (foldl Db.store_record acc records) ->
              is_Some (Db.table (foldl Db.store_record acc records) !! k).
Proof.
  induction records as [|v records IH]; intros acc Hacc; simpl; [done|].
  apply IH. intros k. unfold Db.store_record.
  destruct (Db.valid v); cbn [Db.table Db.ids]; [|by apply Hacc].
  rewrite upsert_fold_lookup.
  intros [Hk|Hk]%elem_of_app; [left; auto|right; exact Hk].
Qed.

(** C3: a non-empty batch of normalized records (distinct ids, one or
    more details each) is stored as more documents than it has records:
    every record is accepted and written as its summary document and one
    document per detail, so the returned ids are as many as that, more than
    the records even when equal ids are counted once, and each of them names
    a document of the table. *)
Theorem store_fan_out (st : gmap string Db.Document)
    (records : list Vulnerability.t) :
  records <> [] ->
  Forall (fun v => Db.advisory_id v <> EmptyString) records ->
  NoDup (Db.advisory_id <$> records) ->
  Forall (fun v => Vulnerability.details v <> []) records ->
  let out := Db.store st records in
  length records < length (Db.ids out)
  /\ length (Db.ids out)
     = sum_list (map (fun v => 1 + length (Vulnerability.details v)) records)
  /\ length records < size (list_to_set (Db.ids out) : gset string)
  /\ (forall k, k ∈ Db.ids out -> is_Some (Db.table out !! k)).
Proof.
  intros Hne Hid Hnd Hdet out. subst out.
  rewrite store_ids by done. rewrite fan_out_count.
  split; [|split; [|split]].
  - pose proof (fan_out_count_lower records Hdet).
    destruct records; [done|]. simpl in *. lia.
  - reflexivity.
  - by apply distinct_keys_written.
  - intros k Hk. rewrite <- (store_ids st) in Hk by done.
    revert k Hk. unfold Db.store. apply store_record_written.
    simpl. by intros k ?%elem_of_nil.
Qed.

Lemma store_fan_out_witness :
  let out := Db.store ∅ [lodash_advisory] in
  length [lodash_advisory] < length (Db.ids out)
  /\ length (Db.ids out) = 2
  /\ length [lodash_advisory] < size (list_to_set (Db.ids out) : gset string)
  /\ (forall k, k ∈ Db.ids out -> is_Some (Db.table out !! k)).
Proof.
  apply (store_fan_out ∅ [lodash_advisory]).
  - discriminate.
  - repeat constructor. discriminate.
  - repeat constructor. intros H. apply list_elem_of_In in H. destruct H.
  - repeat constructor. discriminate.
Defined.

(** ** The Query Engine *)

(** The constructor of PackageIssue returns for every detail, and what it
    returns holds no location. *)
Lemma package_issue_of_none det :
  PackageIssue.__init__ (VulnerabilityDetail.cpe_uri det)
    (match VulnerabilityDetail.fixed_location det with
     | Some loc => VulnerabilityLocation.cpe_uri loc
     | None => PNone
     end)
  = Ok (Db.package_issue_of det)
  /\ Db.package_issue_of det = PackageIssue.Build None None.
Proof.
  unfold Db.package_issue_of, PackageIssue.__init__.
  by rewrite !location_without_input.
Qed.

Section QueryProperties.
Variable registry : gmap string Db.ordering.

Lemma occurrence_inv version d o :
  Db.occurrence registry version d = Some o ->
  exists det,
    Db.doc_details d = Some det
    /\ Db.in_range registry det version = true
    /\ o = Db.synthesize (Db.doc_vuln d) det.
Proof.
  unfold Db.occurrence. destruct (Db.doc_details d) as [det|]; [|done].
  destruct (Db.in_range registry det version) eqn:E; [|done].
  intros [= <-]. eauto.
Qed.

Lemma pkg_search_spec st package version o :
  o ∈ Db.pkg_search registry st package version <->
  exists k d, st !! k = Some d
    /\ Db.has_package package d = true
    /\ Db.occurrence registry version d = Some o.
Proof.
  unfold Db.pkg_search, Db.list_all. rewrite list_elem_of_omap. split.
  - intros ([k d] & Hkd%elem_of_map_to_list & Ho). simpl in Ho.
    destruct (Db.has_package package d) eqn:E; [eauto|done].
  - intros (k & d & Hkd & Hp & Ho). exists (k, d).
    split; [by apply elem_of_map_to_list|]. simpl. by rewrite Hp.
Qed.

Lemma vendor_pkg_search_spec st vendor package version o :
  o ∈ Db.vendor_pkg_search registry st vendor package version <->
  exists k d, st !! k = Some d
    /\ Db.has_package package d = true
    /\ Db.has_vendor vendor d = true
    /\ Db.occurrence registry version d = Some o.
Proof.
  unfold Db.vendor_pkg_search, Db.list_all. rewrite list_elem_of_omap. split.
  - intros ([k d] & Hkd%elem_of_map_to_list & Ho). simpl in Ho.
    destruct (Db.has_package package d) eqn:E1,
             (Db.has_vendor vendor d) eqn:E2; try done.
    exists k, d. eauto.
  - intros (k & d & Hkd & Hp & Hv & Ho). exists (k, d).
    split; [by apply elem_of_map_to_list|]. simpl. by rewrite Hp, Hv.
Qed.

(** A candidate whose detail is about the package, in the words of the
    record. *)
Lemma has_package_spec package d :
  Db.has_package package d = true <->
  exists det, Db.doc_details d = Some det
    /\ VulnerabilityDetail.package det = PStr package.
Proof.
  unfold Db.has_package. destruct (Db.doc_details d) as [det|].
  - split.
    + intros H. exists det. split; [done|]. unfold Db.is_str in H.
      destruct (VulnerabilityDetail.package det); try done.
      by apply String.eqb_eq in H as ->.
    + intros (det' & [= <-] & ->). apply String.eqb_refl.
  - split; [done|]. by intros (det & [=] & _).
Qed.

(** A candidate whose cpe_uri decomposes to the vendor, in the words of the
    grammar. *)
Lemma has_vendor_spec vendor d :
  Db.has_vendor vendor d = true <->
  exists det s m,
    Db.doc_details d = Some det
    /\ VulnerabilityDetail.cpe_uri det = PStr s
    /\ re_match CPE_REGEX s = Some m
    /\ group m "vendor" = PStr vendor.
Proof.
  unfold Db.has_vendor, Db.cpe_vendor, Db.parse_cpe.
  destruct (Db.doc_details d) as [det|];
    [|split; [done|]; by intros (det & s & m & [=] & _)].
  split.
  - destruct (VulnerabilityDetail.cpe_uri det) as [| | |s| | |] eqn:Hs;
      try done.
    destruct (re_match CPE_REGEX s) as [m|] eqn:Hm; [|done].
    destruct (cpe_match_groups s m Hm) as (v & p & ver & ->).
    change (group [("vendor", v); ("package", p); ("version", ver)] "vendor")
      with (PStr v).
    cbn [Db.text]. intros ->%String.eqb_eq.
    by exists det, s, [("vendor", vendor); ("package", p); ("version", ver)].
  - intros (det' & s & m & [= <-] & -> & Hm & Hv). rewrite Hm.
    destruct (cpe_match_groups s m Hm) as (v & p & ver & ->).
    change (group [("vendor", v); ("package", p); ("version", ver)] "vendor")
      with (PStr v) in *.
    injection Hv as ->. cbn [Db.text]. apply String.eqb_refl.
Qed.

Lemma omap_stricter_sublist {A B} (f g : A -> option B) (l : list A) :
  (forall x, f x = None \/ f x = g x) -> omap f l `sublist_of` omap g l.
Proof.
  intros H. induction l as [|x l IH]; [done|]. cbn [omap list_omap].
  destruct (H x) as [-> | ->].
  - destruct (g x); [by apply sublist_cons|done].
  - destruct (g x); [by apply sublist_skip|done].
Qed.
End QueryProperties.

(** C2: the Version Matcher is inclusive range membership: it answers true
    exactly when the lower bound, if there is one, is not above the queried
    version and the queried version is not above the upper bound, if there
    is one, under the ordering it is given; with equal bounds it accepts
    only the versions the ordering equates with the bound (under the
    fallback ordering: that very string); a package search returns the
    occurrences of exactly the stored details of the package whose range
    holds the queried version under the ordering of their package type; and
    for the stored lodash detail with range 0.0.0 to 4.17.15 a search for
    4.17.15 gives exactly one occurrence and one for 4.17.16 gives none. *)
Theorem version_matcher_inclusive_range :
  (forall (cmp : Db.ordering) queried lo hi,
     Db.matches cmp queried lo hi = true <->
     (forall m, lo = Some m -> cmp m queried <> Gt)
     /\ (forall m, hi = Some m -> cmp queried m <> Gt))
  /\ (forall (cmp : Db.ordering) queried,
        Db.matches cmp queried None None = true)
  /\ (forall (cmp : Db.ordering) queried m,
        (forall x y, cmp x y = CompOpp (cmp y x)) ->
        Db.matches cmp queried (Some m) (Some m) = true <-> cmp queried m = Eq)
  /\ (forall queried m,
        Db.matches Db.lexicographic queried (Some m) (Some m) = true <->
        queried = m)
  /\ (forall registry (st : gmap string Db.Document) package version o,
        o ∈ Db.pkg_search registry st package version <->
        exists k d det,
          st !! k = Some d
          /\ Db.doc_details d = Some det
          /\ VulnerabilityDetail.package det = PStr package
          /\ Db.matches
               (Db.ordering_for registry (VulnerabilityDetail.package_type det))
               version
               (Db.bound (VulnerabilityDetail.min_affected_version det))
               (Db.bound (VulnerabilityDetail.max_affected_version det))
             = true
          /\ o = Db.synthesize (Db.doc_vuln d) det)
  /\ (forall strptime det advisory,
        VulnerabilityDetail.__init__ strptime
          (PStr "cpe:2.3:a:lodash:lodash:4.17.15") (PStr "lodash")
          (PStr "0.0.0") (PStr "4.17.15") PNone PNone PNone PNone PNone PNone
        = Ok det ->
        Vulnerability.__init__ strptime (PStr "ADV-1") PNone PNone PNone PNone
          PNone [det] PNone PNone
        = Ok advisory ->
        let st := Db.table (Db.store ∅ [advisory]) in
        length (Db.pkg_search ∅ st "lodash" "4.17.15") = 1
        /\ Db.pkg_search ∅ st "lodash" "4.17.15"
           = [Db.synthesize advisory det]
        /\ Db.pkg_search ∅ st "lodash" "4.17.16" = []).
Proof.
  split; [|split; [|split; [|split; [|split]]]].
  - intros cmp q lo hi. unfold Db.matches. rewrite andb_true_iff.
    destruct lo as [lo|], hi as [hi|]; rewrite ?le_under_not_gt; split.
    all: intros [H1 H2]; split;
      first [ by eauto | intros m Hm; by simplify_eq ].
  - reflexivity.
  - intros cmp q m Hanti. unfold Db.matches.
    rewrite andb_comm. by apply le_under_both.
  - intros q m. unfold Db.matches. rewrite andb_comm.
    rewrite le_under_both by apply String.compare_antisym.
    split.
    + apply String.compare_eq_iff.
    + intros ->. apply lexicographic_refl.
  - intros registry st package version o. rewrite pkg_search_spec. split.
    + intros (k & d & Hk & (det & Hd & Hp)%has_package_spec
              & (det' & Hd' & Hr & ->)%occurrence_inv).
      rewrite Hd in Hd'. injection Hd' as <-. by exists k, d, det.
    + intros (k & d & det & Hk & Hd & Hp & Hr & ->). exists k, d.
      split; [done|]. split; [apply has_package_spec; eauto|].
      unfold Db.occurrence, Db.in_range. by rewrite Hd, Hr.
  - intros strptime det advisory Hdet Hadv.
    vm_compute in Hdet. injection Hdet as <-.
    vm_compute in Hadv. injection Hadv as <-.
    repeat split; vm_compute; reflexivity.
Qed.

Lemma version_matcher_inclusive_range_witness :
  let st := Db.table (Db.store ∅ [lodash_advisory]) in
  length (Db.pkg_search ∅ st "lodash" "4.17.15") = 1
  /\ Db.pkg_search ∅ st "lodash" "4.17.15"
     = [Db.synthesize lodash_advisory lodash_detail]
  /\ Db.pkg_search ∅ st "lodash" "4.17.16" = [].
Proof.
  apply (proj2 (proj2 (proj2 (proj2 (proj2
           version_matcher_inclusive_range))))
           (fun _ => None) lodash_detail lodash_advisory);
    reflexivity.
Defined.

(** C7: a vendor-scoped search returns a part of what the package search
    returns: the occurrences of exactly those candidates of the package
    search whose cpe_uri decomposes to the queried vendor, in the order of
    the package search; a candidate whose cpe_uri cannot be decomposed
    contributes nothing, and the query still answers with the others. *)
Theorem vendor_pkg_search_filters (registry : gmap string Db.ordering)
    (st : gmap string Db.Document) (vendor package version : string) :
  (forall o,
     o ∈ Db.vendor_pkg_search registry st vendor package version <->
     exists k d det s m,
       st !! k = Some d
       /\ Db.doc_details d = Some det
       /\ VulnerabilityDetail.package det = PStr package
       /\ Db.matches
            (Db.ordering_for registry (VulnerabilityDetail.package_type det))
            version
            (Db.bound (VulnerabilityDetail.min_affected_version det))
            (Db.bound (VulnerabilityDetail.max_affected_version det))
          = true
       /\ VulnerabilityDetail.cpe_uri det = PStr s
       /\ re_match CPE_REGEX s = Some m
       /\ group m "vendor" = PStr vendor
       /\ o = Db.synthesize (Db.doc_vuln d) det)
  /\ Db.vendor_pkg_search registry st vendor package version
     `sublist_of` Db.pkg_search registry st package version
  /\ Db.vendor_pkg_search registry st vendor package version
     ⊆ Db.pkg_search registry st package version
  /\ ((forall k d det,
         st !! k = Some d -> Db.doc_details d = Some det ->
         forall s, VulnerabilityDetail.cpe_uri det = PStr s ->
                   re_match CPE_REGEX s = None) ->
      Db.vendor_pkg_search registry st vendor package version = []).
Proof.
  assert (H : forall o,
    o ∈ Db.vendor_pkg_search registry st vendor package version <->
    exists k d det s m,
      st !! k = Some d
      /\ Db.doc_details d = Some det
      /\ VulnerabilityDetail.package det = PStr package
      /\ Db.in_range registry det version = true
      /\ VulnerabilityDetail.cpe_uri det = PStr s
      /\ re_match CPE_REGEX s = Some m
      /\ group m "vendor" = PStr vendor
      /\ o = Db.synthesize (Db.doc_vuln d) det).
  { intros o. rewrite vendor_pkg_search_spec. split.
    - intros (k & d & Hk & (det & Hd & Hp)%has_package_spec
              & (det' & s & m & Hd' & Hs & Hm & Hv)%has_vendor_spec
              & (det'' & Hd'' & Hr & ->)%occurrence_inv).
      rewrite Hd in Hd', Hd''. injection Hd' as <-. injection Hd'' as <-.
      by exists k, d, det, s, m.
    - intros (k & d & det & s & m & Hk & Hd & Hp & Hr & Hs & Hm & Hv & ->).
      exists k, d. split; [done|].
      split; [apply has_package_spec; eauto|].
      split; [apply has_vendor_spec; by exists det, s, m|].
      unfold Db.occurrence. by rewrite Hd, Hr. }
  assert (Hsub :
    Db.vendor_pkg_search registry st vendor package version
    `sublist_of` Db.pkg_search registry st package version).
  { apply omap_stricter_sublist. intros kd.
    destruct (Db.has_package package kd.2), (Db.has_vendor vendor kd.2);
      auto. }
  split; [exact H|]. split; [done|]. split.
  - by apply sublist_subseteq.
  - intros Hnone. apply elem_of_nil_inv. intros o Ho.
    apply H in Ho as (k & d & det & s & m & Hk & Hd & _ & _ & Hs & Hm & _).
    rewrite (Hnone k d det Hk Hd s Hs) in Hm. discriminate.
Qed.

Lemma vendor_pkg_search_filters_witness :
  Db.pkg_search ∅ two_advisories "lodash" "4.17.15"
  = [Db.synthesize lodash_advisory lodash_detail;
     Db.synthesize bare_advisory bare_detail]
  /\ Db.vendor_pkg_search ∅ two_advisories "lodash" "lodash" "4.17.15"
     = [Db.synthesize lodash_advisory lodash_detail]
  /\ Db.synthesize lodash_advisory lodash_detail
       ∈ Db.pkg_search ∅ two_advisories "lodash" "4.17.15"
  /\ Db.vendor_pkg_search ∅ (Db.table (Db.store ∅ [bare_advisory])) "lodash"
       "lodash" "4.17.15" = [].
Proof.
  split; [vm_compute; reflexivity|]. split; [vm_compute; reflexivity|].
  split.
  - apply (proj1 (proj2 (proj2 (vendor_pkg_search_filters ∅ two_advisories
                                  "lodash" "lodash" "4.17.15")))).
    vm_compute. left.
  - apply (proj2 (proj2 (proj2 (vendor_pkg_search_filters ∅
             (Db.table (Db.store ∅ [bare_advisory])) "lodash" "lodash"
             "4.17.15")))).
    intros k d det Hk Hd s Hs.
    assert (Hin : (k, d) ∈ map_to_list (Db.table (Db.store ∅ [bare_advisory])))
      by (by apply elem_of_map_to_list).
    vm_compute in Hin. apply list_elem_of_In in Hin.
    destruct Hin as [Hin|[Hin|[]]]; injection Hin as <- <-;
      first [ discriminate Hd
            | injection Hd as <-; injection Hs as <-; reflexivity ].
Defined.

(** ** The Secondary Index *)

Lemma bucket_add_ref `{Countable K} (m : gmap K (list string)) k ref k' :
  Db.bucket (Db.add_ref k ref m) k'
  = if decide (k = k') then ref :: Db.bucket m k else Db.bucket m k'.
Proof.
  unfold Db.add_ref. unfold Db.bucket at 1.
  rewrite lookup_insert. by destruct (decide (k = k')).
Qed.

Lemma by_package_index_document kd idx name :
  Db.bucket (Db.by_package (Db.index_document kd idx)) name
  = if Db.has_package name kd.2
    then kd.1 :: Db.bucket (Db.by_package idx) name
    else Db.bucket (Db.by_package idx) name.
Proof.
  unfold Db.index_document, Db.has_package.
  destruct (Db.doc_details kd.2) as [det|]; [|done].
  destruct (VulnerabilityDetail.package det) as [| | |p| | |]; try done.
  simpl. rewrite bucket_add_ref.
  destruct (decide (p = name)) as [->|Hne].
  - by rewrite String.eqb_refl.
  - by destruct (String.eqb_spec p name).
Qed.

(** The bucket of a package in a freshly built index: the references of
    the documents whose detail is about that package. *)
Lemma bucket_build documents name ref :
  ref ∈ Db.bucket (Db.by_package (Db.build documents)) name <->
  exists d, (ref, d) ∈ documents /\ Db.has_package name d = true.
Proof.
  induction documents as [|[k d] documents IH]; simpl.
  - unfold Db.bucket. simpl. rewrite lookup_empty. simpl.
    rewrite elem_of_nil. split; [done|]. by intros (d & ?%elem_of_nil & _).
  - rewrite by_package_index_document. simpl.
    destruct (Db.has_package name d) eqn:E.
    + rewrite elem_of_cons, IH. split.
      * intros [->|(d' & Hd' & Hp)]; [exists d | exists d'];
          (split; [|done]); [by left | by right].
      * intros (d' & [[= -> ->]|Hd']%elem_of_cons & Hp); [by left|].
        right. eauto.
    + rewrite IH. split.
      * intros (d' & Hd' & Hp). exists d'. split; [by right|done].
      * intros (d' & [[= -> ->]|Hd']%elem_of_cons & Hp); [congruence|].
        eauto.
Qed.

Lemma deref_bucket_fresh st name d :
  d ∈ Db.deref st (Db.bucket (Db.by_package (Db.build (Db.list_all st))) name)
  <-> exists k, st !! k = Some d /\ Db.has_package name d = true.
Proof.
  unfold Db.deref. rewrite list_elem_of_omap. split.
  - intros (ref & (d' & Hd'%elem_of_map_to_list & Hp)%bucket_build & Hd).
    exists ref. split; [done|]. congruence.
  - intros (k & Hk & Hp). exists k. split; [|done].
    apply bucket_build. exists d. split; [|done].
    by apply elem_of_map_to_list.
Qed.

Lemma candidates_of_lookup idx st names name :
  Db.candidates_of idx st names !! name
  = if decide (name ∈ names)
    then Some (Db.deref st (Db.bucket (Db.by_package idx) name))
    else None.
Proof.
  induction names as [|n names IH].
  - cbn [Db.candidates_of foldr]. rewrite lookup_empty.
    destruct (decide (name ∈ [])) as [Hin|_]; [|done].
    by apply elem_of_nil in Hin.
  - cbn [Db.candidates_of foldr]. fold (Db.candidates_of idx st names).
    destruct (decide (n = name)) as [->|Hne].
    + destruct (decide (name ∈ name :: names)) as [_|Hout];
        [|destruct Hout; by left].
      destruct (Db.candidates_of idx st names !! name) as [c|] eqn:E.
      * rewrite E. rewrite IH in E.
        by destruct (decide (name ∈ names)).
      * by rewrite lookup_insert_eq.
    + destruct (Db.candidates_of idx st names !! n);
        [|rewrite lookup_insert_ne by done]; rewrite IH.
      all: destruct (decide (name ∈ names)) as [Hin|Hout],
                    (decide (name ∈ n :: names)) as [Hin'|Hout']; try done.
      all: first [ destruct Hout'; by right
                 | apply elem_of_cons in Hin' as [?|?]; congruence ].
Qed.

(** C1: over one store and the index built from its documents, the
    indexed queries find what the scan finds: [index_search] returns the
    occurrences of [pkg_search] for every name and version, and
    [bulk_index_search] returns, under the tag of each pair, the
    occurrences of the [pkg_search] of that pair, hence their union. *)
Theorem index_search_equals_pkg_search (registry : gmap string Db.ordering)
    (st : gmap string Db.Document) :
  let idx := Db.build (Db.list_all st) in
  (forall name version o,
     o ∈ Db.index_search registry idx st name version <->
     o ∈ Db.pkg_search registry st name version)
  /\ (forall pairs tag o,
        (tag, o) ∈ Db.bulk_index_search registry idx st pairs <->
        exists name version,
          (name, version) ∈ pairs
          /\ tag = name ++ "|" ++ version
          /\ o ∈ Db.pkg_search registry st name version)
  /\ (forall pairs o,
        o ∈ (Db.bulk_index_search registry idx st pairs).*2 <->
        exists name version,
          (name, version) ∈ pairs
          /\ o ∈ Db.pkg_search registry st name version).
Proof.
  intros idx.
  assert (Hone : forall name version o,
    o ∈ Db.index_search registry idx st name version <->
    o ∈ Db.pkg_search registry st name version).
  { intros name version o. unfold Db.index_search, idx.
    rewrite list_elem_of_omap, pkg_search_spec. split.
    - intros (d & (k & Hk & Hp)%deref_bucket_fresh & Ho). eauto.
    - intros (k & d & Hk & Hp & Ho). exists d. split; [|done].
      apply deref_bucket_fresh. eauto. }
  assert (Hbulk : forall pairs tag o,
    (tag, o) ∈ Db.bulk_index_search registry idx st pairs <->
    exists name version,
      (name, version) ∈ pairs
      /\ tag = name ++ "|" ++ version
      /\ o ∈ Db.pkg_search registry st name version).
  { intros pairs tag o. unfold Db.bulk_index_search.
    rewrite list_elem_of_In, in_flat_map. split.
    - intros ([name version] & Hnv%list_elem_of_In & Hin). simpl in Hin.
      apply in_map_iff in Hin as (o' & [= <- <-] & Ho).
      exists name, version. split; [done|]. split; [done|].
      apply Hone. unfold Db.index_search.
      rewrite candidates_of_lookup in Ho.
      rewrite decide_True in Ho; [by apply list_elem_of_In|].
      apply list_elem_of_In, in_map_iff. exists (name, version).
      split; [done|]. by apply list_elem_of_In.
    - intros (name & version & Hnv & -> & Ho). exists (name, version).
      split; [by apply list_elem_of_In|]. simpl.
      apply in_map. apply Hone in Ho. unfold Db.index_search in Ho.
      rewrite candidates_of_lookup, decide_True; [by apply list_elem_of_In|].
      apply list_elem_of_In, in_map_iff. exists (name, version).
      split; [done|]. by apply list_elem_of_In. }
  split; [done|]. split; [done|].
  intros pairs o. rewrite list_elem_of_fmap. split.
  - intros ([tag o'] & -> & (name & version & Hnv & _ & Ho)%Hbulk). eauto.
  - intros (name & version & Hnv & Ho).
    exists (name ++ "|" ++ version, o). split; [done|].
    apply Hbulk. eauto 6.
Qed.

(** * Further properties of vulndb/lib/__init__.py *)

(** ** The CPE grammar *)

Lemma string_app_cons x (a b : string) : String x a ++ b = String x (a ++ b).
Proof. reflexivity. Qed.

Lemma string_app_assoc (a b c : string) : (a ++ b) ++ c = a ++ (b ++ c).
Proof.
  induction a as [|x a IH]; [done|]. rewrite !string_app_cons. by f_equal.
Qed.

Lemma run_skip c s : s = run c s ++ skip c s.
Proof.
  induction s as [|a r IH]; [done|]. cbn [run skip].
  destruct (Ascii.eqb a c); [done|]. rewrite string_app_cons. by f_equal.
Qed.

Lemma substring_prefix (x y : string) :
  String.substring 0 (String.length x) (x ++ y) = x.
Proof.
  induction x as [|a x IH].
  - by destruct y.
  - rewrite string_app_cons. cbn [String.length String.substring].
    by rewrite IH.
Qed.

Lemma taken_skip c s : taken s (skip c s) = run c s.
Proof.
  unfold taken. pose proof (run_skip c s) as H.
  assert (Hlen : String.length s - String.length (skip c s)
                 = String.length (run c s)).
  { rewrite H at 1. rewrite string_length_app. lia. }
  rewrite Hlen.
  transitivity (String.substring 0 (String.length (run c s))
                  (run c s ++ skip c s)).
  - by rewrite <- H.
  - apply substring_prefix.
Qed.

(** With a continuation that refuses every text starting inside a run, or
    that accepts the text after the run, backtracking over [[^c]*] ends
    where the greedy run ends. *)
Lemma star_not_greedy {A} c s (k : string -> option A) :
  (forall a t, Ascii.eqb a c = false -> k (String a t) = None)
  \/ k (skip c s) <> None ->
  star_not c s k = k (skip c s).
Proof.
  intros Hk. induction s as [|a r IH]; simpl; [done|].
  destruct (Ascii.eqb a c) eqn:E; [done|].
  simpl in Hk. rewrite E in Hk. rewrite IH by done.
  destruct (k (skip c r)) as [y|] eqn:Ek; [done|].
  destruct Hk as [Hk|Hk]; [by apply Hk | done].
Qed.

Lemma plus_not_greedy {A} s (k : string -> option A) :
  (forall a t, Ascii.eqb a ":" = false -> k (String a t) = None)
  \/ (forall t, k t <> None) ->
  plus_not ":" s k = '(_, t) ← field_of s; k t.
Proof.
  intros Hk. destruct s as [|a r]; [done|].
  unfold plus_not, field_of. destruct (Ascii.eqb a ":") eqn:E; [done|].
  simpl. rewrite E. apply star_not_greedy.
  destruct Hk as [Hk|Hk]; [by left | right; apply Hk].
Qed.

Lemma strip_colon_refuses a t :
  Ascii.eqb a ":" = false -> strip_prefix ":" (String a t) = None.
Proof. intros E. cbn [strip_prefix]. by rewrite Ascii.eqb_sym, E. Qed.

Lemma field_of_taken s x t : field_of s = Some (x, t) -> taken s t = x.
Proof.
  destruct s as [|a r]; [done|]. unfold field_of.
  destruct (Ascii.eqb a ":"); [done|]. intros [= <- <-].
  exact (taken_skip ":" (String a r)).
Qed.

(** A field followed by a colon inside a pattern. *)
Lemma rmatch_field_colon {A} r s g (k : string -> Match -> option A) :
  rmatch (Cat (PlusNot ":") (Cat (Str ":") r)) s g k
  = '(_, t) ← field_of s; t' ← strip_prefix ":" t; rmatch r t' g k.
Proof.
  cbn [rmatch]. rewrite plus_not_greedy.
  - destruct (field_of s) as [[x t]|]; [|done]. simpl.
    by destruct (strip_prefix ":" t).
  - left. intros a t E. by rewrite strip_colon_refuses.
Qed.

Lemma rmatch_group_colon {A} name r s g (k : string -> Match -> option A) :
  rmatch (Cat (Grp name (PlusNot ":")) (Cat (Str ":") r)) s g k
  = '(x, t) ← field_of s; t' ← strip_prefix ":" t;
    rmatch r t' ((name, x) :: g) k.
Proof.
  cbn [rmatch]. rewrite plus_not_greedy.
  - destruct (field_of s) as [[x t]|] eqn:E; [|done]. simpl.
    rewrite (field_of_taken s x t E). by destruct (strip_prefix ":" t).
  - left. intros a t E. by rewrite strip_colon_refuses.
Qed.

Lemma rmatch_group_last name s g :
  rmatch (Grp name (PlusNot ":")) s g (fun _ g' => Some (rev g'))
  = '(x, _) ← field_of s; Some (rev ((name, x) :: g)).
Proof.
  cbn [rmatch]. rewrite plus_not_greedy by (by right).
  destruct (field_of s) as [[x t]|] eqn:E; [|done]. simpl.
  by rewrite (field_of_taken s x t E).
Qed.

Lemma rmatch_colon {A} r s g (k : string -> Match -> option A) :
  rmatch (Cat (Str ":") r) s g k = t ← strip_prefix ":" s; rmatch r t g k.
Proof. cbn [rmatch]. by destruct (strip_prefix ":" s). Qed.

Lemma rmatch_cpe_tail s :
  rmatch (Cat (Str ":")
    (Cat (PlusNot ":") (Cat (Str ":")
    (Cat (PlusNot ":") (Cat (Str ":")
    (Cat (Grp "vendor" (PlusNot ":")) (Cat (Str ":")
    (Cat (Grp "package" (PlusNot ":")) (Cat (Str ":")
    (Grp "version" (PlusNot ":")))))))))))
    s [] (fun _ g' => Some (rev g'))
  = cpe_tail s.
Proof.
  unfold cpe_tail. rewrite rmatch_colon.
  destruct (strip_prefix ":" s) as [s1|]; [|done]. cbn [mbind option_bind].
  rewrite rmatch_field_colon.
  destruct (field_of s1) as [[a s2]|]; [|done]. cbn [mbind option_bind].
  destruct (strip_prefix ":" s2) as [s3|]; [|done]. cbn [mbind option_bind].
  rewrite rmatch_field_colon.
  destruct (field_of s3) as [[b s4]|]; [|done]. cbn [mbind option_bind].
  destruct (strip_prefix ":" s4) as [s5|]; [|done]. cbn [mbind option_bind].
  rewrite rmatch_group_colon.
  destruct (field_of s5) as [[v s6]|]; [|done]. cbn [mbind option_bind].
  destruct (strip_prefix ":" s6) as [s7|]; [|done]. cbn [mbind option_bind].
  rewrite rmatch_group_colon.
  destruct (field_of s7) as [[p s8]|]; [|done]. cbn [mbind option_bind].
  destruct (strip_prefix ":" s8) as [s9|]; [|done]. cbn [mbind option_bind].
  rewrite rmatch_group_last.
  by destruct (field_of s9) as [[ver s10]|].
Qed.

Lemma rmatch_cpe_head {A} r s (k : string -> Match -> option A) :
  rmatch (Cat (Str "cpe") (Cat (Opt (Str ":")) r)) s [] k
  = t ← strip_prefix "cpe" s;
    match t' ← strip_prefix ":" t; rmatch r t' [] k with
    | Some m => Some m
    | None => rmatch r t [] k
    end.
Proof.
  cbn [rmatch]. destruct (strip_prefix "cpe" s) as [t|]; [|done].
  cbn [mbind option_bind]. by destruct (strip_prefix ":" t).
Qed.

(** The matcher on [CPE_REGEX] is the splitter. *)
Lemma re_match_cpe_split s : re_match CPE_REGEX s = cpe_split s.
Proof.
  unfold re_match, cpe_split, CPE_REGEX. rewrite rmatch_cpe_head.
  destruct (strip_prefix "cpe" s) as [t|]; [|done].
  cbn [mbind option_bind].
  destruct (strip_prefix ":" t) as [t'|]; cbn [mbind option_bind].
  - by rewrite !rmatch_cpe_tail.
  - by rewrite rmatch_cpe_tail.
Qed.

Lemma strip_prefix_app p t : strip_prefix p (p ++ t) = Some t.
Proof.
  induction p as [|a p IH]; [destruct t; reflexivity|].
  rewrite string_app_cons. cbn [strip_prefix]. by rewrite Ascii.eqb_refl.
Qed.

Lemma strip_prefix_some p s t : strip_prefix p s = Some t -> s = p ++ t.
Proof.
  revert s. induction p as [|a p IH]; intros s.
  - destruct s; intros [= <-]; reflexivity.
  - destruct s as [|b s]; [done|]. cbn [strip_prefix].
    destruct (Ascii.eqb_spec a b) as [->|]; [|done].
    intros ->%IH. by rewrite string_app_cons.
Qed.

Lemma free_of_run c s : free_of c (run c s) = true.
Proof.
  induction s as [|a r IH]; [done|]. cbn [run].
  destruct (Ascii.eqb a c) eqn:E; [done|]. cbn [free_of]. by rewrite E, IH.
Qed.

Lemma skip_boundary s : at_boundary (skip ":" s) = true.
Proof.
  induction s as [|a r IH]; [done|]. cbn [skip].
  destruct (Ascii.eqb a ":") eqn:E; [|done]. cbn [at_boundary]. done.
Qed.

Lemma is_field_cons x :
  is_field x = true ->
  exists a r, x = String a r /\ Ascii.eqb a ":" = false.
Proof.
  destruct x as [|a r]; [done|]. unfold is_field. intros H.
  apply andb_prop in H as [_ H]. cbn [free_of] in H.
  destruct (Ascii.eqb a ":") eqn:E; [done|]. eauto.
Qed.

Lemma run_skip_app x t :
  free_of ":" x = true -> at_boundary t = true ->
  run ":" (x ++ t) = x /\ skip ":" (x ++ t) = t.
Proof.
  intros Hx Ht. induction x as [|a x IH].
  - destruct t as [|b t]; [done|]. cbn [at_boundary] in Ht.
    change (EmptyString ++ String b t) with (String b t).
    cbn [run skip]. by rewrite Ht.
  - cbn [free_of] in Hx. apply andb_prop in Hx as [Ha Hx].
    apply negb_true_iff in Ha. rewrite string_app_cons. cbn [run skip].
    rewrite Ha. destruct (IH Hx) as [-> ->]. done.
Qed.

Lemma field_of_some s x t :
  field_of s = Some (x, t) <->
  s = x ++ t /\ is_field x = true /\ at_boundary t = true.
Proof.
  split.
  - destruct s as [|a r]; [done|]. unfold field_of.
    destruct (Ascii.eqb a ":") eqn:E; [done|]. intros H.
    apply (inj Some), pair_equal_spec in H as [<- <-].
    split; [apply run_skip|]. split; [|apply skip_boundary].
    unfold is_field. rewrite free_of_run. cbn [run]. by rewrite E.
  - intros (-> & Hx & Ht).
    destruct (is_field_cons x Hx) as (a & r & -> & Ha).
    apply andb_prop in Hx as [_ Hx].
    destruct (run_skip_app (String a r) t Hx Ht) as [Hr Hs].
    rewrite string_app_cons in *. unfold field_of. rewrite Ha.
    by rewrite Hr, Hs.
Qed.

Lemma field_of_app x t :
  is_field x = true -> at_boundary t = true -> field_of (x ++ t) = Some (x, t).
Proof. intros Hx Ht. by apply field_of_some. Qed.

(** The texts on which the rest of the pattern succeeds. *)
Lemma cpe_tail_some t m :
  cpe_tail t = Some m <->
  exists a b vendor package version rest,
    is_field a = true /\ is_field b = true /\ is_field vendor = true
    /\ is_field package = true /\ is_field version = true
    /\ at_boundary rest = true
    /\ t = ":" ++ a ++ ":" ++ b ++ ":" ++ vendor ++ ":" ++ package ++ ":"
           ++ version ++ rest
    /\ m = [("vendor", vendor); ("package", package); ("version", version)].
Proof.
  unfold cpe_tail. split.
  - destruct (strip_prefix ":" t) as [s1|] eqn:E1; [|done].
    cbn [mbind option_bind].
    destruct (field_of s1) as [[a s2]|] eqn:F1; [|done].
    cbn [mbind option_bind].
    destruct (strip_prefix ":" s2) as [s3|] eqn:E2; [|done].
    cbn [mbind option_bind].
    destruct (field_of s3) as [[b s4]|] eqn:F2; [|done].
    cbn [mbind option_bind].
    destruct (strip_prefix ":" s4) as [s5|] eqn:E3; [|done].
    cbn [mbind option_bind].
    destruct (field_of s5) as [[v s6]|] eqn:F3; [|done].
    cbn [mbind option_bind].
    destruct (strip_prefix ":" s6) as [s7|] eqn:E4; [|done].
    cbn [mbind option_bind].
    destruct (field_of s7) as [[p s8]|] eqn:F4; [|done].
    cbn [mbind option_bind].
    destruct (strip_prefix ":" s8) as [s9|] eqn:E5; [|done].
    cbn [mbind option_bind].
    destruct (field_of s9) as [[ver rest]|] eqn:F5; [|done].
    cbn [mbind option_bind]. intros [= <-].
    apply strip_prefix_some in E1, E2, E3, E4, E5.
    apply field_of_some in F1 as (F1 & Ha & _), F2 as (F2 & Hb & _),
      F3 as (F3 & Hv & _), F4 as (F4 & Hp & _), F5 as (F5 & Hver & Hrest).
    exists a, b, v, p, ver, rest. repeat (split; [done|]).
    split; [|done]. by subst.
  - intros (a & b & v & p & ver & rest & Ha & Hb & Hv & Hp & Hver & Hrest
            & -> & ->).
    rewrite strip_prefix_app. cbn [mbind option_bind].
    rewrite field_of_app by done. cbn [mbind option_bind].
    rewrite strip_prefix_app. cbn [mbind option_bind].
    rewrite field_of_app by done. cbn [mbind option_bind].
    rewrite strip_prefix_app. cbn [mbind option_bind].
    rewrite field_of_app by done. cbn [mbind option_bind].
    rewrite strip_prefix_app. cbn [mbind option_bind].
    rewrite field_of_app by done. cbn [mbind option_bind].
    rewrite strip_prefix_app. cbn [mbind option_bind].
    by rewrite field_of_app.
Qed.

Lemma cpe_tail_refuses_field x t :
  is_field x = true -> cpe_tail (x ++ t) = None.
Proof.
  intros (a & r & -> & Ha)%is_field_cons. unfold cpe_tail.
  rewrite string_app_cons, strip_colon_refuses by done. done.
Qed.

Lemma cpe_split_some s m :
  cpe_split s = Some m <->
  exists sep a b vendor package version rest,
    (sep = ":" \/ sep = "::")
    /\ is_field a = true /\ is_field b = true /\ is_field vendor = true
    /\ is_field package = true /\ is_field version = true
    /\ at_boundary rest = true
    /\ s = "cpe" ++ sep ++ a ++ ":" ++ b ++ ":" ++ vendor ++ ":" ++ package
           ++ ":" ++ version ++ rest
    /\ m = [("vendor", vendor); ("package", package); ("version", version)].
Proof.
  unfold cpe_split. split.
  - destruct (strip_prefix "cpe" s) as [t|] eqn:E; [|done].
    apply strip_prefix_some in E as ->. cbn [mbind option_bind].
    destruct (strip_prefix ":" t) as [t'|] eqn:E'; cbn [mbind option_bind].
    + apply strip_prefix_some in E' as ->.
      destruct (cpe_tail t') as [m'|] eqn:T.
      * intros [= ->].
        apply cpe_tail_some in T
          as (a & b & v & p & ver & rest & ? & ? & ? & ? & ? & ? & -> & ->).
        exists "::", a, b, v, p, ver, rest. repeat (split; [by auto|]).
        done.
      * intros (a & b & v & p & ver & rest & ? & ? & ? & ? & ? & ? & -> & ->)
          %cpe_tail_some.
        exists ":", a, b, v, p, ver, rest. repeat (split; [by auto|]).
        done.
    + intros (a & b & v & p & ver & rest & ? & ? & ? & ? & ? & ? & -> & ->)
        %cpe_tail_some.
      exists ":", a, b, v, p, ver, rest. repeat (split; [by auto|]). done.
  - intros (sep & a & b & v & p & ver & rest & Hsep & Ha & Hb & Hv & Hp & Hver
            & Hrest & -> & ->).
    rewrite strip_prefix_app. cbn [mbind option_bind].
    assert (Htail : cpe_tail (":" ++ a ++ ":" ++ b ++ ":" ++ v ++ ":" ++ p
                              ++ ":" ++ ver ++ rest)
                    = Some [("vendor", v); ("package", p); ("version", ver)]).
    { apply cpe_tail_some. exists a, b, v, p, ver, rest. auto 10. }
    destruct Hsep as [-> | ->].
    + rewrite strip_prefix_app. cbn [mbind option_bind].
      by rewrite cpe_tail_refuses_field.
    + change ("::" ++ ?x) with (":" ++ ":" ++ x).
      rewrite strip_prefix_app. cbn [mbind option_bind]. by rewrite Htail.
Qed.

Lemma count_char_app c (a b : string) :
  count_char c (a ++ b) = count_char c a + count_char c b.
Proof.
  induction a as [|x a IH]; [done|].
  rewrite string_app_cons. cbn [count_char]. rewrite IH. lia.
Qed.

(** X1: a text that [CPE_REGEX] matches has the shape of a CPE: [cpe], one
    or two colons, two fields, then the vendor, the package and the version,
    separated by colons and followed by the end of the text or a colon; the
    three groups are those fields, none empty and none holding a colon. *)
Theorem cpe_match_decomposes s m :
  re_match CPE_REGEX s = Some m ->
  exists sep a b vendor package version rest,
    (sep = ":" \/ sep = "::")
    /\ is_field a = true /\ is_field b = true /\ is_field vendor = true
    /\ is_field package = true /\ is_field version = true
    /\ at_boundary rest = true
    /\ s = "cpe" ++ sep ++ a ++ ":" ++ b ++ ":" ++ vendor ++ ":" ++ package
           ++ ":" ++ version ++ rest
    /\ m = [("vendor", vendor); ("package", package); ("version", version)].
Proof. rewrite re_match_cpe_split. apply cpe_split_some. Qed.

Lemma cpe_match_decomposes_witness :
  exists sep a b vendor package version rest,
    (sep = ":" \/ sep = "::")
    /\ is_field a = true /\ is_field b = true /\ is_field vendor = true
    /\ is_field package = true /\ is_field version = true
    /\ at_boundary rest = true
    /\ "cpe:2.3:a:lodash:lodash:4.17.15:*:*"
       = "cpe" ++ sep ++ a ++ ":" ++ b ++ ":" ++ vendor ++ ":" ++ package
         ++ ":" ++ version ++ rest
    /\ [("vendor", "lodash"); ("package", "lodash"); ("version", "4.17.15")]
       = [("vendor", vendor); ("package", package); ("version", version)].
Proof.
  apply (cpe_match_decomposes "cpe:2.3:a:lodash:lodash:4.17.15:*:*").
  reflexivity.
Defined.

(** X2: every text of that shape is matched, with its third, fourth and
    fifth field as vendor, package and version, whatever follows the version
    after a colon. *)
Theorem cpe_match_of_fields sep a b vendor package version rest :
  sep = ":" \/ sep = "::" ->
  is_field a = true -> is_field b = true -> is_field vendor = true ->
  is_field package = true -> is_field version = true ->
  at_boundary rest = true ->
  re_match CPE_REGEX ("cpe" ++ sep ++ a ++ ":" ++ b ++ ":" ++ vendor ++ ":"
                      ++ package ++ ":" ++ version ++ rest)
  = Some [("vendor", vendor); ("package", package); ("version", version)].
Proof.
  intros. rewrite re_match_cpe_split. apply cpe_split_some.
  exists sep, a, b, vendor, package, version, rest. auto 10.
Qed.

Lemma cpe_match_of_fields_witness :
  re_match CPE_REGEX ("cpe" ++ "::" ++ "2.3" ++ ":" ++ "a" ++ ":" ++ "apache"
                      ++ ":" ++ "tomcat" ++ ":" ++ "9.0.1" ++ ":*:*:*")
  = Some [("vendor", "apache"); ("package", "tomcat"); ("version", "9.0.1")].
Proof.
  apply cpe_match_of_fields; first [reflexivity | right; reflexivity].
Defined.

(** X3: what follows the version after a colon does not matter: a matched
    text stays matched, with the same groups, when a colon and anything
    else are appended. *)
Theorem cpe_match_ignores_trailing s m t :
  re_match CPE_REGEX s = Some m ->
  re_match CPE_REGEX (s ++ ":" ++ t) = Some m.
Proof.
  intros (sep & a & b & v & p & ver & rest & Hsep & Ha & Hb & Hv & Hp & Hver
          & Hrest & -> & ->)%cpe_match_decomposes.
  rewrite !string_app_assoc.
  apply cpe_match_of_fields; try done.
  destruct rest; [reflexivity|]. by rewrite string_app_cons.
Qed.

Lemma cpe_match_ignores_trailing_witness :
  re_match CPE_REGEX ("cpe:2.3:a:lodash:lodash:4.17.15" ++ ":" ++ "*:*:node.js")
  = Some [("vendor", "lodash"); ("package", "lodash"); ("version", "4.17.15")].
Proof. apply cpe_match_ignores_trailing. reflexivity. Defined.

(** X4: a text that does not start with [cpe:], or that holds fewer than
    five colons, is not matched. *)
Theorem cpe_no_match s :
  strip_prefix "cpe:" s = None \/ count_char ":" s < 5 ->
  re_match CPE_REGEX s = None.
Proof.
  intros H. destruct (re_match CPE_REGEX s) as [m|] eqn:E; [|done].
  exfalso.
  apply cpe_match_decomposes in E
    as (sep & a & b & v & p & ver & rest & Hsep & _ & _ & _ & _ & _ & _
        & -> & _).
  destruct H as [H|H].
  - destruct Hsep as [-> | ->].
    + change ("cpe" ++ ":" ++ ?x) with ("cpe:" ++ x) in H.
      by rewrite strip_prefix_app in H.
    + change ("cpe" ++ "::" ++ ?x) with ("cpe:" ++ ":" ++ x) in H.
      by rewrite strip_prefix_app in H.
  - rewrite !count_char_app in H.
    assert (1 <= count_char ":" sep) by (by destruct Hsep as [-> | ->]; cbn; lia).
    change (count_char ":" ":") with 1 in H. lia.
Qed.

Lemma cpe_no_match_witness :
  re_match CPE_REGEX "cpe:/a:lodash:lodash" = None
  /\ re_match CPE_REGEX "pkg:npm:a:lodash:lodash:4.17.15" = None.
Proof.
  split; apply cpe_no_match.
  - right. cbn. lia.
  - left. reflexivity.
Defined.

(** ** Severity, further *)

Lemma from_str_string s :
  Severity.from_str (PStr s)
  = Ok (Severity.lookup_member Severity.__members__ (PStr (upper s))).
Proof.
  destruct (String.eqb_spec s EmptyString) as [->|Hs]; [done|].
  by apply from_str_of_string.
Qed.

(** X5: printing a member and parsing the text gives the member back. *)
Theorem severity_str_round_trip m :
  Severity.from_str (PStr (Severity.__str__ m)) = Ok m.
Proof. by destruct m. Qed.

(** X6: the parse of a string depends on its upper-casing only: two strings
    that differ in the case of their letters parse alike. *)
Theorem severity_from_str_case_blind s t :
  upper s = upper t ->
  Severity.from_str (PStr s) = Severity.from_str (PStr t).
Proof. intros H. by rewrite !from_str_string, H. Qed.

Lemma severity_from_str_case_blind_witness :
  Severity.from_str (PStr "mEdium") = Severity.from_str (PStr "MEDium").
Proof. apply severity_from_str_case_blind. reflexivity. Defined.

Lemma dict_getitem_cases d key :
  ((key ∉ d.*1) /\ dict_getitem d key = Raise KeyError)
  \/ (exists d1 d2 v,
        d = (d1 ++ (key, v) :: d2)%list /\ (key ∉ d1.*1)
        /\ dict_getitem d key = Ok v).
Proof.
  induction d as [|[k v] d IH]; simpl.
  - left. split; [apply not_elem_of_nil|done].
  - destruct (String.eqb_spec k key) as [->|Hne].
    + right. exists [], d, v. split; [done|]. split; [apply not_elem_of_nil|done].
    + destruct IH as [[Hout ->]|(d1 & d2 & w & -> & Hout & ->)].
      * left. split; [|done]. by intros [?|?]%elem_of_cons.
      * right. exists ((k, v) :: d1), d2, w. split; [done|]. split; [|done].
        by intros [?|?]%elem_of_cons.
Qed.

(** The parse after a dictionary has been replaced by its value. *)
Lemma payload_raises w e :
  (if negb (truthy w) then Ok Severity.UNSPECIFIED
   else u <- py_upper w ;;
        Ok (Severity.lookup_member Severity.__members__ u)) = Raise e <->
  truthy w = true /\ (forall s, w <> PStr s)
  /\ (forall mutable b, w <> PBytes mutable b) /\ e = AttributeError.
Proof.
  destruct w as [|b|z|s|mu bs|l|d]; cbn [truthy].
  - split; [done|]. by intros [[=] _].
  - destruct b; cbn [negb py_upper bind]; split.
    + by intros [= <-].
    + by intros (_ & _ & _ & ->).
    + done.
    + by intros [[=] _].
  - destruct (negb (Z.eqb z 0)); cbn [negb py_upper bind]; split.
    + by intros [= <-].
    + by intros (_ & _ & _ & ->).
    + done.
    + by intros [[=] _].
  - destruct (negb (String.eqb s EmptyString)); cbn [negb py_upper bind];
      (split; [done|]); intros (_ & H & _); by destruct (H s).
  - destruct (negb (String.eqb bs EmptyString)); cbn [negb py_upper bind];
      (split; [done|]); intros (_ & _ & H & _); by destruct (H mu bs).
  - destruct l; cbn [negb py_upper bind]; split.
    + done.
    + by intros [[=] _].
    + by intros [= <-].
    + by intros (_ & _ & _ & ->).
  - destruct d; cbn [negb py_upper bind]; split.
    + done.
    + by intros [[=] _].
    + by intros [= <-].
    + by intros (_ & _ & _ & ->).
Qed.

(** X7: when parsing a severity raises.  A dictionary without the key
    "value" raises KeyError; otherwise the value parsed (the input, or what
    the dictionary holds under "value", taken as it is even when it is a
    dictionary again) raises AttributeError exactly when it is truthy and
    has no [upper] method, that is, is neither a string nor bytes nor a
    bytearray; nothing else raises. *)
Theorem severity_from_str_raises v e :
  Severity.from_str v = Raise e <->
  match v with
  | PDict d =>
      (("value" ∉ d.*1) /\ e = KeyError)
      \/ (exists d1 d2 w,
            d = (d1 ++ ("value", w) :: d2)%list /\ ("value" ∉ d1.*1)
            /\ truthy w = true /\ (forall s, w <> PStr s)
            /\ (forall mutable b, w <> PBytes mutable b)
            /\ e = AttributeError)
  | _ => truthy v = true /\ (forall s, v <> PStr s)
         /\ (forall mutable b, v <> PBytes mutable b) /\ e = AttributeError
  end.
Proof.
  destruct v as [|b|z|s|mu bs|l|d]; try apply payload_raises.
  unfold Severity.from_str.
  destruct (dict_getitem_cases d "value")
    as [[Hout E]|(d1 & d2 & w & -> & Hout & E)]; rewrite E; cbn [bind].
  - split.
    + intros [= <-]. by left.
    + intros [[_ ->]|(d1 & d2 & w & -> & _)]; [done|].
      destruct Hout. rewrite fmap_app, elem_of_app. right. by left.
  - rewrite payload_raises. split.
    + intros H. right. by exists d1, d2, w.
    + intros [[Hin _]|(d1' & d2' & w' & Hd & Hout' & H)].
      * destruct Hin. rewrite fmap_app, elem_of_app. right. by left.
      * assert (Ok w' = Ok w) as [= ->]; [|exact H].
        rewrite <- E, Hd. symmetry. by apply dict_getitem_binding.
Qed.

Lemma severity_from_str_raises_witness :
  Severity.from_str (PInt 7) = Raise AttributeError
  /\ Severity.from_str (PDict [("value", PDict [("value", PStr "high")])])
     = Raise AttributeError
  /\ Severity.from_str (PBytes false "high") <> Raise AttributeError.
Proof.
  split; [|split].
  - apply (proj2 (severity_from_str_raises (PInt 7) AttributeError)).
    repeat split; discriminate.
  - apply (proj2 (severity_from_str_raises
                    (PDict [("value", PDict [("value", PStr "high")])])
                    AttributeError)).
    right. exists [], [], (PDict [("value", PStr "high")]).
    repeat split; try discriminate. apply not_elem_of_nil.
  - intros H.
    apply (proj1 (severity_from_str_raises (PBytes false "high")
                    AttributeError)) in H as (_ & _ & Hb & _).
    by destruct (Hb false "high").
Defined.

(** ** Package types and locations, further *)

Lemma is_field_truthy x : is_field x = true -> truthy (PStr x) = true.
Proof. intros H. by apply andb_prop in H as [H _]. Qed.

Lemma get_type_unknown_string s package_type :
  py_in package_type KNOWN_PKG_TYPES = false ->
  VulnerabilityDetail.get_type (PStr s) package_type
  = Ok match re_match CPE_REGEX s with
       | Some m => group m "vendor"
       | None => PNone
       end.
Proof.
  intros H. unfold VulnerabilityDetail.get_type. rewrite H.
  cbn [CPE_REGEX_match bind].
  destruct (re_match CPE_REGEX s) as [m|]; [|done].
  by case (py_in (group m "vendor") KNOWN_PKG_TYPES).
Qed.

(** X8: the package type is stable: determining the type again from the
    same cpe_uri and the type just determined changes nothing. *)
Theorem get_type_stable cpe_uri package_type type :
  VulnerabilityDetail.get_type cpe_uri package_type = Ok type ->
  VulnerabilityDetail.get_type cpe_uri type = Ok type.
Proof.
  destruct (py_in package_type KNOWN_PKG_TYPES) eqn:Hk.
  - unfold VulnerabilityDetail.get_type at 1. rewrite Hk. intros [= <-].
    unfold VulnerabilityDetail.get_type. by rewrite Hk.
  - destruct cpe_uri as [|b|z|s|mu bs|l|d];
      try (unfold VulnerabilityDetail.get_type; by rewrite Hk).
    rewrite get_type_unknown_string by done. intros [= <-].
    destruct (py_in (match re_match CPE_REGEX s with
                     | Some m => group m "vendor"
                     | None => PNone
                     end) KNOWN_PKG_TYPES) eqn:Hv.
    + unfold VulnerabilityDetail.get_type. by rewrite Hv.
    + rewrite get_type_unknown_string by done.
      by destruct (re_match CPE_REGEX s).
Qed.

Lemma get_type_stable_witness :
  VulnerabilityDetail.get_type (PStr "cpe:2.3:a:npm:tar:4.4.1") (PStr "npm")
  = Ok (PStr "npm")
  /\ VulnerabilityDetail.get_type (PStr "cpe:2.3:a:acme:widget:1.0")
       (PStr "acme") = Ok (PStr "acme").
Proof.
  split.
  - apply (get_type_stable _ (PStr "node")). reflexivity.
  - apply (get_type_stable _ (PStr "cargo")). reflexivity.
Defined.



(** X10: when a location is built.  For a cpe_uri string there is a
    location exactly when a location input is supplied and the cpe_uri
    matches the grammar; its package and version are the package and the
    version of that cpe_uri, and its cpe_uri field holds the location input.
    The only exception is the TypeError for a cpe_uri that is no string
    next to a supplied location. *)
Theorem location_from_dict_outcome :
  (forall s fixed_location loc,
     VulnerabilityLocation.from_dict (PStr s) fixed_location = Ok (Some loc) <->
     truthy fixed_location = true
     /\ exists vendor package version,
          re_match CPE_REGEX s
          = Some [("vendor", vendor); ("package", package);
                  ("version", version)]
          /\ loc = VulnerabilityLocation.Build fixed_location (PStr package)
                     (PStr version))
  /\ (forall cpe_uri fixed_location e,
        VulnerabilityLocation.from_dict cpe_uri fixed_location = Raise e <->
        truthy fixed_location = true
        /\ (forall s, cpe_uri <> PStr s) /\ e = TypeError).
Proof.
  split.
  - intros s fl loc. unfold VulnerabilityLocation.from_dict.
    destruct (truthy fl); cbn [negb CPE_REGEX_match bind].
    + destruct (re_match CPE_REGEX s) as [m|] eqn:Hm.
      * destruct (cpe_match_groups s m Hm) as (v & p & ver & ->). split.
        -- intros [= <-]. split; [done|]. by exists v, p, ver.
        -- intros (_ & v' & p' & ver' & [= <- <- <-] & ->). done.
      * split; [done|]. by intros (_ & v & p & ver & [=] & _).
    + split; [done|]. by intros [[=] _].
  - intros u fl e. unfold VulnerabilityLocation.from_dict.
    destruct (truthy fl); cbn [negb].
    + destruct u as [|b|z|s|mu bs|l|d]; cbn [CPE_REGEX_match bind].
      all: try (split; [by intros [= <-] | by intros (_ & _ & ->)]).
      split.
      * by destruct (re_match CPE_REGEX s).
      * intros (_ & H & _). by destruct (H s).
    + split; [done|]. by intros [[=] _].
Qed.

Lemma location_from_dict_outcome_witness :
  VulnerabilityLocation.from_dict (PStr "cpe:2.3:a:lodash:lodash:4.17.15")
    (PStr "4.17.16")
  = Ok (Some (VulnerabilityLocation.Build (PStr "4.17.16") (PStr "lodash")
                (PStr "4.17.15"))).
Proof.
  apply (proj2 (proj1 location_from_dict_outcome _ _ _)).
  split; [reflexivity|]. by exists "lodash", "lodash", "4.17.15".
Defined.

(** ** Vulnerability details, further *)

Section DetailInit.
Variable strptime : string -> option datetime.
Variables (s : string).
Variables (package vmin vmax severity description fixed_location package_type
           is_obsolete source_update_time : pyval).

Let init : result VulnerabilityDetail.t :=
  VulnerabilityDetail.__init__ strptime (PStr s) package vmin vmax severity
    description fixed_location package_type is_obsolete source_update_time.

(** The constructor on a cpe_uri of the grammar. *)
Lemma detail_init_matched m :
  re_match CPE_REGEX s = Some m ->
  init =
  (sev <- Severity.from_str severity ;;
   Ok {| VulnerabilityDetail.cpe_uri := PStr s;
         VulnerabilityDetail.package :=
           if truthy package then package else group m "package";
         VulnerabilityDetail.min_affected_version :=
           if truthy vmin then vmin else group m "version";
         VulnerabilityDetail.max_affected_version :=
           if truthy vmax then vmax else group m "version";
         VulnerabilityDetail.severity := sev;
         VulnerabilityDetail.description := description;
         VulnerabilityDetail.fixed_location :=
           if truthy fixed_location
           then Some (VulnerabilityLocation.Build fixed_location
                        (group_nth m 2) (group_nth m 3))
           else None;
         VulnerabilityDetail.package_type :=
           if py_in package_type KNOWN_PKG_TYPES then package_type
           else group m "vendor";
         VulnerabilityDetail.is_obsolete := is_obsolete;
         VulnerabilityDetail.source_update_time :=
           convert_time strptime source_update_time |}).
Proof.
  intros Hm. unfold init, VulnerabilityDetail.__init__.
  cbn [CPE_REGEX_match bind]. rewrite Hm.
  unfold VulnerabilityDetail.or_group, parts_group,
    VulnerabilityLocation.from_dict, VulnerabilityDetail.get_type.
  cbn [CPE_REGEX_match]. rewrite Hm.
  destruct (truthy package), (truthy vmin), (truthy vmax),
    (Severity.from_str severity), (truthy fixed_location),
    (py_in package_type KNOWN_PKG_TYPES); cbn [bind negb]; try reflexivity;
    by case (py_in (group m "vendor") KNOWN_PKG_TYPES).
Qed.

(** The constructor on a cpe_uri outside the grammar. *)
Lemma detail_init_unmatched :
  re_match CPE_REGEX s = None ->
  init =
  if truthy package && truthy vmin && truthy vmax then
    sev <- Severity.from_str severity ;;
    Ok {| VulnerabilityDetail.cpe_uri := PStr s;
          VulnerabilityDetail.package := package;
          VulnerabilityDetail.min_affected_version := vmin;
          VulnerabilityDetail.max_affected_version := vmax;
          VulnerabilityDetail.severity := sev;
          VulnerabilityDetail.description := description;
          VulnerabilityDetail.fixed_location := None;
          VulnerabilityDetail.package_type :=
            if py_in package_type KNOWN_PKG_TYPES then package_type
            else PNone;
          VulnerabilityDetail.is_obsolete := is_obsolete;
          VulnerabilityDetail.source_update_time :=
            convert_time strptime source_update_time |}
  else Raise AttributeError.
Proof.
  intros Hm. unfold init, VulnerabilityDetail.__init__.
  cbn [CPE_REGEX_match bind]. rewrite Hm.
  unfold VulnerabilityDetail.or_group, parts_group,
    VulnerabilityLocation.from_dict, VulnerabilityDetail.get_type.
  cbn [CPE_REGEX_match]. rewrite Hm.
  destruct (truthy package), (truthy vmin), (truthy vmax);
    cbn [bind andb]; try reflexivity.
  destruct (Severity.from_str severity), (truthy fixed_location),
    (py_in package_type KNOWN_PKG_TYPES); reflexivity.
Qed.

(** X11: when a detail is constructed.  With a cpe_uri string, the
    constructor returns a detail exactly when the severity parses and either
    the cpe_uri matches the grammar or package and both version bounds are
    all supplied. *)
Theorem detail_init_succeeds_iff :
  (exists det, init = Ok det) <->
  (exists sev, Severity.from_str severity = Ok sev)
  /\ (re_match CPE_REGEX s <> None
      \/ (truthy package = true /\ truthy vmin = true /\ truthy vmax = true)).
Proof.
  destruct (re_match CPE_REGEX s) as [m|] eqn:Hm.
  - rewrite (detail_init_matched m Hm).
    destruct (Severity.from_str severity) as [sev|e]; cbn [bind]; split.
    + intros _. split; [eauto|by left].
    + eauto.
    + by intros [det [=]].
    + by intros [[sev [=]] _].
  - rewrite (detail_init_unmatched Hm).
    destruct (truthy package), (truthy vmin), (truthy vmax); cbn [andb].
    all: destruct (Severity.from_str severity) as [sev|e]; cbn [bind]; split.
    all: try (by intros [det [=]]).
    all: try (by intros [[sev [=]] _]).
    all: try (intros [_ [H|(? & ? & ?)]]; done).
    + intros _. split; [eauto|by right].
    + eauto.
Qed.

(** X12: a constructed detail has no unset field to match on: its
    cpe_uri is the string given, and its package and both version bounds
    are truthy, taken from the input or from the cpe_uri. *)
Theorem detail_init_fields_set det :
  init = Ok det ->
  VulnerabilityDetail.cpe_uri det = PStr s
  /\ truthy (VulnerabilityDetail.package det) = true
  /\ truthy (VulnerabilityDetail.min_affected_version det) = true
  /\ truthy (VulnerabilityDetail.max_affected_version det) = true.
Proof.
  destruct (re_match CPE_REGEX s) as [m|] eqn:Hm.
  - rewrite (detail_init_matched m Hm).
    apply cpe_match_decomposes in Hm
      as (sep & a & b & v & p & ver & rest & _ & _ & _ & _ & Hp%is_field_truthy
          & Hver%is_field_truthy & _ & _ & ->).
    destruct (Severity.from_str severity); [|done]. cbn [bind].
    intros [= <-]. cbn.
    destruct (truthy package) eqn:E1, (truthy vmin) eqn:E2,
      (truthy vmax) eqn:E3; auto.
  - rewrite (detail_init_unmatched Hm).
    destruct (truthy package) eqn:E1, (truthy vmin) eqn:E2,
      (truthy vmax) eqn:E3; cbn [andb]; try done.
    destruct (Severity.from_str severity); [|done]. cbn [bind].
    by intros [= <-].
Qed.

(** X13: a detail for a cpe_uri outside the grammar.  It is constructed only
    from a supplied package and supplied bounds, which it keeps; it has no
    fixed location even when one is supplied, and its package type is the
    supplied type when that is of the known set and None otherwise. *)
Theorem detail_init_outside_grammar det :
  re_match CPE_REGEX s = None ->
  init = Ok det ->
  VulnerabilityDetail.package det = package
  /\ VulnerabilityDetail.min_affected_version det = vmin
  /\ VulnerabilityDetail.max_affected_version det = vmax
  /\ VulnerabilityDetail.fixed_location det = None
  /\ VulnerabilityDetail.package_type det
     = (if py_in package_type KNOWN_PKG_TYPES then package_type else PNone).
Proof.
  intros Hm. rewrite (detail_init_unmatched Hm).
  destruct (truthy package && truthy vmin && truthy vmax); [|done].
  destruct (Severity.from_str severity); [|done]. cbn [bind].
  by intros [= <-].
Qed.

End DetailInit.

Lemma detail_init_succeeds_iff_witness :
  (exists det,
     VulnerabilityDetail.__init__ (fun _ => None) (PStr "lodash")
       (PStr "lodash") (PStr "4.0.0") (PStr "4.17.20") (PStr "low") PNone
       PNone PNone PNone PNone = Ok det)
  /\ ~ (exists det,
          VulnerabilityDetail.__init__ (fun _ => None)
            (PStr "cpe:2.3:a:lodash:lodash:4.17.15") PNone PNone PNone
            (PInt 9) PNone PNone PNone PNone PNone = Ok det).
Proof.
  split.
  - apply detail_init_succeeds_iff. split.
    + by exists Severity.LOW.
    + right. by repeat split.
  - intros H. apply detail_init_succeeds_iff in H as [[sev Hsev] _].
    discriminate Hsev.
Defined.

Lemma detail_init_fields_set_witness :
  VulnerabilityDetail.cpe_uri derived_detail
  = PStr "cpe:2.3:a:lodash:lodash:4.17.15"
  /\ truthy (VulnerabilityDetail.package derived_detail) = true
  /\ truthy (VulnerabilityDetail.min_affected_version derived_detail) = true
  /\ truthy (VulnerabilityDetail.max_affected_version derived_detail) = true.
Proof.
  apply (detail_init_fields_set (fun _ => None)
           "cpe:2.3:a:lodash:lodash:4.17.15" PNone PNone PNone PNone PNone
           (PStr "4.17.16") PNone PNone PNone derived_detail).
  reflexivity.
Defined.

Lemma detail_init_outside_grammar_witness :
  VulnerabilityDetail.package bare_detail = PStr "lodash"
  /\ VulnerabilityDetail.min_affected_version bare_detail = PStr "4.0.0"
  /\ VulnerabilityDetail.max_affected_version bare_detail = PStr "4.17.20"
  /\ VulnerabilityDetail.fixed_location bare_detail = None
  /\ VulnerabilityDetail.package_type bare_detail = PNone.
Proof.
  apply (detail_init_outside_grammar (fun _ => None) "lodash" (PStr "lodash")
           (PStr "4.0.0") (PStr "4.17.20") PNone PNone (PStr "4.17.21")
           (PStr "cargo") PNone PNone bare_detail);
    reflexivity.
Defined.


Section DetailFromDict.
Variable strptime : string -> option datetime.

(** X15: what [from_dict] raises on input without a usable cpe_uri: a value
    that is no dictionary raises AttributeError at the first [get]; a
    dictionary whose cpe_uri is missing or no string raises TypeError in
    the matcher, whatever its other entries are. *)
Theorem detail_from_dict_raises :
  (forall detail,
     (forall d, detail <> PDict d) ->
     VulnerabilityDetail.from_dict strptime detail = Raise AttributeError)
  /\ (forall d,
        (forall s, dict_get d "cpe_uri" <> PStr s) ->
        VulnerabilityDetail.from_dict strptime (PDict d) = Raise TypeError).
Proof.
  split.
  - intros detail Hd. destruct detail as [|b|z|s|mu bs|l|d]; try reflexivity.
    by destruct (Hd d).
  - intros d Hs. unfold VulnerabilityDetail.from_dict, py_get.
    cbn [bind]. unfold VulnerabilityDetail.__init__.
    destruct (dict_get d "cpe_uri") as [|b|z|s|mu bs|l|d']; try reflexivity.
    by destruct (Hs s).
Qed.

(** X16: a dictionary that holds a cpe_uri of the grammar and nothing else
    gives a detail derived from the cpe_uri alone: its package, both bounds
    equal to its version, its vendor as package type, severity UNSPECIFIED
    and no fixed location. *)
Theorem detail_from_dict_cpe_only d s vendor package version :
  dict_get d "cpe_uri" = PStr s ->
  (forall key, key <> "cpe_uri" -> dict_get d key = PNone) ->
  re_match CPE_REGEX s
  = Some [("vendor", vendor); ("package", package); ("version", version)] ->
  VulnerabilityDetail.from_dict strptime (PDict d)
  = Ok {| VulnerabilityDetail.cpe_uri := PStr s;
          VulnerabilityDetail.package := PStr package;
          VulnerabilityDetail.min_affected_version := PStr version;
          VulnerabilityDetail.max_affected_version := PStr version;
          VulnerabilityDetail.severity := Severity.UNSPECIFIED;
          VulnerabilityDetail.description := PNone;
          VulnerabilityDetail.fixed_location := None;
          VulnerabilityDetail.package_type := PStr vendor;
          VulnerabilityDetail.is_obsolete := PNone;
          VulnerabilityDetail.source_update_time := AsGiven PNone |}.
Proof.
  intros Hcpe Hrest Hm. unfold VulnerabilityDetail.from_dict, py_get.
  cbn [bind]. rewrite Hcpe. rewrite !Hrest by discriminate.
  by rewrite (detail_init_matched strptime s PNone PNone PNone PNone PNone
                PNone PNone PNone PNone _ Hm).
Qed.
End DetailFromDict.

Lemma detail_from_dict_raises_witness :
  VulnerabilityDetail.from_dict (fun _ => None)
    (PDict [("package", PStr "lodash"); ("min_affected_version", PStr "0.0.0");
            ("max_affected_version", PStr "4.17.15")])
  = Raise TypeError
  /\ VulnerabilityDetail.from_dict (fun _ => None)
       (PStr "cpe:2.3:a:lodash:lodash:4.17.15")
     = Raise AttributeError.
Proof.
  destruct (detail_from_dict_raises (fun _ => None)) as [H1 H2]. split.
  - apply H2. discriminate.
  - apply H1. discriminate.
Defined.

Lemma detail_from_dict_cpe_only_witness :
  VulnerabilityDetail.package <$>
    VulnerabilityDetail.from_dict (fun _ => None)
      (PDict [("cpe_uri", PStr "cpe:2.3:a:apache:tomcat:9.0.1:*:*")])
  = Ok (PStr "tomcat").
Proof.
  rewrite (detail_from_dict_cpe_only (fun _ => None) _
             "cpe:2.3:a:apache:tomcat:9.0.1:*:*" "apache" "tomcat" "9.0.1").
  - reflexivity.
  - reflexivity.
  - intros key Hkey. cbn [dict_get].
    destruct (String.eqb_spec "cpe_uri" key); [congruence|done].
  - reflexivity.
Defined.
